(** * Fake Productivity Detector: scoring, suggestion and preprocessing core

    A shallow embedding of the backend services of the repository
    ([app/config.py], [app/services/scoring.py], [app/services/suggestions.py],
    [app/services/preprocessing.py], [app/services/ml_model.py]), of the
    hour validator of [app/models/schemas.py], the column mapping of
    [app/utils/csv_parser.py] and the in-memory history of
    [app/models/database.py], and the properties of them that the
    specification states or that the code shows.

    Numbers.  A Python number is an [int] (unbounded, modelled by [Z]) or a
    [float].  A float is modelled by the rational it denotes: float
    arithmetic is taken exact, so rounding error, infinities and NaN are not
    represented.  What Python turns into an exception is represented: the
    conversion of an [int] that is too large for a double raises
    [OverflowError], and a division by zero raises [ZeroDivisionError]. *)

From Stdlib Require Import ZArith QArith Qround Qabs Qminmax Lqa Lia Ascii String.
From Stdlib Require Import DecimalString.
From stdpp Require Import base gmap strings list sorting.

Local Open Scope string_scope.

(** ** Python values, exceptions and built-ins *)

Module Py.

Inductive exn : Type :=
| ValueError (msg : string)
| OverflowError (msg : string)
| ZeroDivisionError (msg : string)
| KeyError (key : string)
| LibraryError (msg : string).

Inductive result (A : Type) : Type :=
| Ok (a : A)
| Raise (e : exn).
Arguments Ok {A} a.
Arguments Raise {A} e.

#[global] Instance result_ret : MRet result := fun A a => Ok a.
#[global] Instance result_bind : MBind result := fun A B f c =>
  match c with
  | Ok a => f a
  | Raise e => Raise e
  end.

Inductive pynum : Type :=
| PyInt (n : Z)
| PyFloat (q : Q).

Definition to_Q (x : pynum) : Q :=
  match x with
  | PyInt n => inject_Z n
  | PyFloat q => q
  end.

(** The least magnitude that no longer rounds to a finite double: half-way
    between the largest double, 2^1024 - 2^971, and 2^1024. *)
Definition DBL_OVERFLOW : Z := (2 ^ 1024 - 2 ^ 970)%Z.
Arguments DBL_OVERFLOW : simpl never.

Definition int_fits (n : Z) : bool := (Z.abs n <? DBL_OVERFLOW)%Z.

Definition float_of_int (n : Z) : result Q :=
  if int_fits n then Ok (inject_Z n)
  else Raise (OverflowError "int too large to convert to float").

Definition as_float (x : pynum) : result Q :=
  match x with
  | PyFloat q => Ok q
  | PyInt n => float_of_int n
  end.

(** The numbers that take part in float arithmetic without an exception. *)
Definition representable (x : pynum) : Prop :=
  match x with
  | PyFloat _ => True
  | PyInt n => (Z.abs n < DBL_OVERFLOW)%Z
  end.

Definition py_mul (x y : pynum) : result pynum :=
  match x, y with
  | PyInt a, PyInt b => Ok (PyInt (a * b))
  | _, _ => a ← as_float x; b ← as_float y; Ok (PyFloat (a * b))
  end.

Definition py_add (x y : pynum) : result pynum :=
  match x, y with
  | PyInt a, PyInt b => Ok (PyInt (a + b))
  | _, _ => a ← as_float x; b ← as_float y; Ok (PyFloat (a + b))
  end.

Definition py_sub (x y : pynum) : result pynum :=
  match x, y with
  | PyInt a, PyInt b => Ok (PyInt (a - b))
  | _, _ => a ← as_float x; b ← as_float y; Ok (PyFloat (a - b))
  end.

Definition py_neg (x : pynum) : pynum :=
  match x with
  | PyInt a => PyInt (- a)
  | PyFloat q => PyFloat (- q)
  end.

(** [x / y]: true division, always a float. *)
Definition py_truediv (x y : pynum) : result pynum :=
  match x, y with
  | PyInt a, PyInt b =>
      if (b =? 0)%Z then Raise (ZeroDivisionError "division by zero")
      else
        let q := (inject_Z a / inject_Z b)%Q in
        if Qle_bool (inject_Z DBL_OVERFLOW) (Qabs q)
        then Raise (OverflowError "integer division result too large for a float")
        else Ok (PyFloat q)
  | _, _ =>
      a ← as_float x; b ← as_float y;
      if Qeq_bool b 0 then Raise (ZeroDivisionError "float division by zero")
      else Ok (PyFloat (a / b))
  end.

(** Comparisons between ints and floats are exact in Python. *)
Definition py_lt (x y : pynum) : bool :=
  match (to_Q x ?= to_Q y)%Q with Lt => true | _ => false end.
Definition py_le (x y : pynum) : bool :=
  match (to_Q x ?= to_Q y)%Q with Gt => false | _ => true end.
Definition py_eq (x y : pynum) : bool :=
  match (to_Q x ?= to_Q y)%Q with Eq => true | _ => false end.
Definition py_gt (x y : pynum) : bool := py_lt y x.
Definition py_ge (x y : pynum) : bool := py_le y x.

(** [max(a, b)] and [min(a, b)] keep the first argument unless the second
    is strictly greater (smaller). *)
Definition py_max (a b : pynum) : pynum := if py_gt b a then b else a.
Definition py_min (a b : pynum) : pynum := if py_lt b a then b else a.

(** Rounding to the nearest integer, ties to the even one. *)
Definition round_half_even (q : Q) : Z :=
  let f := Qfloor q in
  match (q - inject_Z f ?= 1 # 2)%Q with
  | Lt => f
  | Gt => (f + 1)%Z
  | Eq => if Z.even f then f else (f + 1)%Z
  end.

Definition round_decimals (ndigits : nat) (q : Q) : Q :=
  let scale := inject_Z (10 ^ Z.of_nat ndigits) in
  (inject_Z (round_half_even (q * scale)) / scale)%Q.

(** [round(x, ndigits)] for [ndigits >= 0]: an int is returned as it is. *)
Definition py_round (x : pynum) (ndigits : nat) : pynum :=
  match x with
  | PyInt n => PyInt n
  | PyFloat q => PyFloat (round_decimals ndigits q)
  end.

(** [l[:n]]: a negative [n] counts from the end. *)
Definition slice_to {A} (l : list A) (n : Z) : list A :=
  if (n <? 0)%Z then take (length l - Z.to_nat (- n)) l
  else take (Z.to_nat n) l.

(** [l.sort(key=...)]: the sort is stable, so its result is the one of an
    insertion sort that puts an element before the later elements with the
    same key. *)
Fixpoint insert_by_key {A} (key : A -> Z) (x : A) (l : list A) : list A :=
  match l with
  | [] => [x]
  | y :: l' =>
      if (key x <=? key y)%Z then x :: l else y :: insert_by_key key x l'
  end.

Definition list_sort_key {A} (key : A -> Z) (l : list A) : list A :=
  foldr (insert_by_key key) [] l.





(** [format(x, ".0f")]: no decimals, ties to the even integer, and a minus
    sign for every negative value, also one that rounds to zero; an int is
    converted to a float first. *)
Definition format_0f (x : pynum) : result string :=
  q ← as_float x;
  let digits := NilZero.string_of_uint (N.to_uint (Z.abs_N (round_half_even q))) in
  Ok (match (q ?= 0)%Q with
      | Lt => "-" ++ digits
      | _ => digits
      end).

(** [s in t] for strings *)
Fixpoint is_substring (s t : string) : bool :=
  String.prefix s t ||
  match t with
  | EmptyString => false
  | String _ t' => is_substring s t'
  end.

End Py.

Import Py.

(** ** app/config.py *)

Module ScoringConfig.
Definition TASK_WEIGHT : pynum := PyFloat 8.
Definition IDLE_WEIGHT : pynum := PyFloat 6.
Definition SOCIAL_MEDIA_WEIGHT : pynum := PyFloat 7.
Definition BREAK_WEIGHT : pynum := PyFloat 2.
Definition TASKS_COMPLETED_WEIGHT : pynum := PyFloat 5.

Definition MIN_SCORE : pynum := PyFloat 0.
Definition MAX_SCORE : pynum := PyFloat 100.

Definition HIGHLY_PRODUCTIVE_MIN : pynum := PyFloat 80.
Definition MODERATELY_PRODUCTIVE_MIN : pynum := PyFloat 50.
End ScoringConfig.

Module ProductivityCategory.
Definition HIGHLY_PRODUCTIVE : string := "Highly Productive".
Definition MODERATELY_PRODUCTIVE : string := "Moderately Productive".
Definition FAKE_PRODUCTIVITY : string := "Fake Productivity".
End ProductivityCategory.

(** ** app/services/scoring.py *)

Module Scoring.

Record ScoringResult : Type := {
  score : pynum;
  category : string;
  breakdown : gmap string pynum;
  raw_score : pynum
}.

Definition _normalize_score (raw_score : pynum) : pynum :=
  py_max ScoringConfig.MIN_SCORE (py_min ScoringConfig.MAX_SCORE raw_score).

Definition _classify_category (score : pynum) : string :=
  if py_ge score ScoringConfig.HIGHLY_PRODUCTIVE_MIN
  then ProductivityCategory.HIGHLY_PRODUCTIVE
  else if py_ge score ScoringConfig.MODERATELY_PRODUCTIVE_MIN
  then ProductivityCategory.MODERATELY_PRODUCTIVE
  else ProductivityCategory.FAKE_PRODUCTIVITY.

(** The diagnostic [logger.debug] call only formats two floats and is left
    out; everything else follows the body statement by statement. *)
Definition calculate_score
    (task_hours idle_hours social_media_hours break_frequency tasks_completed : pynum)
    : result ScoringResult :=
  task_contribution ← py_mul task_hours ScoringConfig.TASK_WEIGHT;
  tasks_completed_contribution ←
    py_mul tasks_completed ScoringConfig.TASKS_COMPLETED_WEIGHT;
  idle_penalty ← py_mul idle_hours ScoringConfig.IDLE_WEIGHT;
  social_media_penalty ← py_mul social_media_hours ScoringConfig.SOCIAL_MEDIA_WEIGHT;
  break_penalty ← py_mul break_frequency ScoringConfig.BREAK_WEIGHT;
  s1 ← py_add task_contribution tasks_completed_contribution;
  s2 ← py_sub s1 idle_penalty;
  s3 ← py_sub s2 social_media_penalty;
  raw_score ← py_sub s3 break_penalty;
  let normalized_score := _normalize_score raw_score in
  let category := _classify_category normalized_score in
  breaks_as_hours ← py_truediv break_frequency (PyInt 2);
  let breakdown : gmap string pynum :=
    <["break_penalty" := py_round (py_neg break_penalty) 2]> (
    <["social_media_penalty" := py_round (py_neg social_media_penalty) 2]> (
    <["idle_penalty" := py_round (py_neg idle_penalty) 2]> (
    <["tasks_completed_contribution" := py_round tasks_completed_contribution 2]> (
    <["task_contribution" := py_round task_contribution 2]> (
    <["breaks" := py_round breaks_as_hours 2]> (
    <["social" := py_round social_media_hours 2]> (
    <["idle" := py_round idle_hours 2]> (
    <["productive" := py_round task_hours 2]> ∅)))))))) in
  Ok {| score := py_round normalized_score 2;
        category := category;
        breakdown := breakdown;
        raw_score := py_round raw_score 2 |}.

Definition get_category_thresholds : result (gmap string (pynum * pynum)) :=
  moderately_max ← py_sub ScoringConfig.HIGHLY_PRODUCTIVE_MIN (PyFloat 0.01);
  fake_max ← py_sub ScoringConfig.MODERATELY_PRODUCTIVE_MIN (PyFloat 0.01);
  Ok (<[ProductivityCategory.FAKE_PRODUCTIVITY :=
          (ScoringConfig.MIN_SCORE, fake_max)]> (
      <[ProductivityCategory.MODERATELY_PRODUCTIVE :=
          (ScoringConfig.MODERATELY_PRODUCTIVE_MIN, moderately_max)]> (
      <[ProductivityCategory.HIGHLY_PRODUCTIVE :=
          (ScoringConfig.HIGHLY_PRODUCTIVE_MIN, ScoringConfig.MAX_SCORE)]> ∅))).

End Scoring.

(** ** app/models/schemas.py *)

Module Schemas.

(** [ActivityDataInput.validate_hours], the validator of the three hour
    fields. *)
Definition validate_hours (v : pynum) : pynum := py_round v 2.

End Schemas.

(** ** app/services/suggestions.py *)

Module Suggestions.

Record SuggestionRule : Type := {
  condition : string;
  threshold : pynum;
  comparison : string;
  suggestion : string;
  priority : Z;
  category : string
}.

Record SuggestionEngine : Type := {
  rules : list SuggestionRule
}.

Definition _create_rules : list SuggestionRule :=
  [
    {| condition := "idle_hours";
       threshold := PyFloat 2.0;
       comparison := "gt";
       suggestion :=
         "Your idle time is quite high. Try using focus techniques like the Pomodoro method to maintain consistent productivity throughout the day.";
       priority := 1;
       category := "focus" |};
    {| condition := "idle_hours";
       threshold := PyFloat 1.0;
       comparison := "gt";
       suggestion :=
         "Consider minimizing idle time with better task planning. Break large tasks into smaller, manageable chunks.";
       priority := 2;
       category := "focus" |};
    {| condition := "social_media_usage";
       threshold := PyFloat 3.0;
       comparison := "gt";
       suggestion :=
         "Your social media usage is significantly impacting productivity. Consider using app blockers like Freedom, Cold Turkey, or built-in screen time limits.";
       priority := 1;
       category := "distraction" |};
    {| condition := "social_media_usage";
       threshold := PyFloat 2.0;
       comparison := "gt";
       suggestion :=
         "Reduce social media usage to improve focus. Try scheduling specific times for social media instead of checking continuously.";
       priority := 2;
       category := "distraction" |};
    {| condition := "social_media_usage";
       threshold := PyFloat 1.5;
       comparison := "gt";
       suggestion :=
         "Consider using website blockers during work hours to minimize social media distractions.";
       priority := 3;
       category := "distraction" |};
    {| condition := "break_frequency";
       threshold := PyInt 10;
       comparison := "gt";
       suggestion :=
         "Too many breaks can disrupt your workflow. Try the Pomodoro technique: 25 minutes work, 5 minutes break.";
       priority := 1;
       category := "breaks" |};
    {| condition := "break_frequency";
       threshold := PyInt 8;
       comparison := "gt";
       suggestion :=
         "Consolidate your breaks to maintain workflow momentum. Longer, less frequent breaks are more effective than many short ones.";
       priority := 2;
       category := "breaks" |};
    {| condition := "break_frequency";
       threshold := PyInt 2;
       comparison := "lt";
       suggestion :=
         "Taking regular breaks actually improves productivity. Consider adding short breaks every 45-60 minutes.";
       priority := 3;
       category := "breaks" |};
    {| condition := "task_hours";
       threshold := PyFloat 4.0;
       comparison := "lt";
       suggestion :=
         "Increase focused work hours for better productivity. Start with time-blocking specific tasks in your calendar.";
       priority := 2;
       category := "focus" |};
    {| condition := "task_hours";
       threshold := PyFloat 2.0;
       comparison := "lt";
       suggestion :=
         "Your productive hours are very low. Try identifying your peak productivity hours and scheduling important tasks during those times.";
       priority := 1;
       category := "focus" |};
    {| condition := "tasks_completed";
       threshold := PyInt 3;
       comparison := "lt";
       suggestion :=
         "Set clear, achievable task goals for each day. Try breaking larger projects into smaller, completable tasks.";
       priority := 2;
       category := "planning" |};
    {| condition := "tasks_completed";
       threshold := PyInt 5;
       comparison := "lt";
       suggestion :=
         "Consider using a task management system like Todoist, Trello, or simple to-do lists to track and complete more tasks.";
       priority := 3;
       category := "planning" |};
    {| condition := "efficiency_ratio";
       threshold := PyFloat 0.5;
       comparison := "lt";
       suggestion :=
         "You're spending time on tasks but completion rate is low. Focus on finishing tasks before starting new ones.";
       priority := 2;
       category := "efficiency" |};
    {| condition := "score";
       threshold := PyInt 80;
       comparison := "gte";
       suggestion :=
         "Excellent work! Maintain your current productivity habits. Consider sharing your strategies with peers.";
       priority := 5;
       category := "positive" |};
    {| condition := "score";
       threshold := PyInt 90;
       comparison := "gte";
       suggestion :=
         "Outstanding productivity! You're in the top tier. Keep up the great work!";
       priority := 5;
       category := "positive" |}
  ].

(** [SuggestionEngine()] *)
Definition new_engine : SuggestionEngine := {| rules := _create_rules |}.

Definition _check_rule (rule : SuggestionRule) (metrics : gmap string pynum) : bool :=
  match metrics !! condition rule with
  | None => false
  | Some value =>
      let threshold := threshold rule in
      let comparisons : gmap string bool :=
        <["eq" := py_eq value threshold]> (
        <["lte" := py_le value threshold]> (
        <["gte" := py_ge value threshold]> (
        <["lt" := py_lt value threshold]> (
        <["gt" := py_gt value threshold]> ∅)))) in
      default false (comparisons !! comparison rule)
  end.

Definition _get_default_suggestions (score : pynum) : list string :=
  if py_ge score (PyInt 80) then
    [ "Excellent work! Maintain your current productivity habits.";
      "Consider mentoring others with your productivity strategies.";
      "Challenge yourself with more ambitious goals." ]
  else if py_ge score (PyInt 50) then
    [ "Good progress! Focus on consistency to improve further.";
      "Try identifying your peak productivity hours.";
      "Set specific goals for each work session." ]
  else
    [ "Start with small improvements - even 10% better is progress.";
      "Identify your biggest time wasters and address them first.";
      "Consider using productivity apps to track your time.";
      "Set realistic daily goals and celebrate small wins." ].

(** [tasks_completed / max(task_hours, 1) if task_hours > 0 else 0] *)
Definition efficiency_ratio (task_hours tasks_completed : pynum) : result pynum :=
  if py_gt task_hours (PyInt 0)
  then py_truediv tasks_completed (py_max task_hours (PyInt 1))
  else Ok (PyInt 0).

Definition build_metrics
    (task_hours idle_hours social_media_usage break_frequency tasks_completed
     efficiency_ratio score : pynum) : gmap string pynum :=
  <["score" := score]> (
  <["efficiency_ratio" := efficiency_ratio]> (
  <["tasks_completed" := tasks_completed]> (
  <["task_hours" := task_hours]> (
  <["break_frequency" := break_frequency]> (
  <["social_media_usage" := social_media_usage]> (
  <["idle_hours" := idle_hours]> ∅)))))).

(** The loop over [self.rules] that appends a (priority, category,
    suggestion) triple for every rule that fires. *)
Fixpoint collect_triggered (rules : list SuggestionRule) (metrics : gmap string pynum)
    : list (Z * string * string) :=
  match rules with
  | [] => []
  | rule :: rest =>
      if _check_rule rule metrics
      then (priority rule, category rule, suggestion rule)
             :: collect_triggered rest metrics
      else collect_triggered rest metrics
  end.

(** The loop that keeps the first suggestion of every category, and every
    suggestion of category "positive". *)
Fixpoint unique_by_category (seen_categories : gset string)
    (triggered : list (Z * string * string)) : list string :=
  match triggered with
  | [] => []
  | (_, category, suggestion) :: rest =>
      if bool_decide (category ∉ seen_categories)
         || bool_decide (category = "positive")
      then suggestion :: unique_by_category ({[category]} ∪ seen_categories) rest
      else unique_by_category seen_categories rest
  end.

(** [max_suggestions] defaults to 5 at the call sites that leave it out. *)
Definition generate_suggestions (self : SuggestionEngine)
    (task_hours idle_hours social_media_usage break_frequency tasks_completed
     score : pynum) (max_suggestions : Z) : result (list string) :=
  efficiency_ratio ← efficiency_ratio task_hours tasks_completed;
  let metrics :=
    build_metrics task_hours idle_hours social_media_usage break_frequency
                  tasks_completed efficiency_ratio score in
  let triggered_suggestions := collect_triggered (rules self) metrics in
  let triggered_suggestions := list_sort_key (fun x => x.1.1) triggered_suggestions in
  let unique_suggestions := unique_by_category ∅ triggered_suggestions in
  let unique_suggestions :=
    match unique_suggestions with
    | [] => _get_default_suggestions score
    | _ => unique_suggestions
    end in
  Ok (slice_to unique_suggestions max_suggestions).

(** [tips.get(category, tips[MODERATELY_PRODUCTIVE])]: the default is looked
    up before the call. *)
Definition get_category_specific_tips (category : string) : result (list string) :=
  let tips : gmap string (list string) :=
    <[ProductivityCategory.FAKE_PRODUCTIVITY :=
        [ "Start fresh with a simple daily planning routine";
          "Focus on completing one task before starting another";
          "Use the 2-minute rule: if it takes 2 minutes, do it now";
          "Set up your environment to minimize distractions";
          "Consider an accountability partner or productivity coach" ]]> (
    <[ProductivityCategory.MODERATELY_PRODUCTIVE :=
        [ "You're on the right track - focus on consistency";
          "Identify your top 3 time wasters and address them";
          "Try time-blocking your most important tasks";
          "Review your productivity weekly and adjust" ]]> (
    <[ProductivityCategory.HIGHLY_PRODUCTIVE :=
        [ "Share your productivity strategies with colleagues";
          "Consider taking on leadership roles in team projects";
          "Mentor others who are struggling with productivity";
          "Document your workflow for future reference" ]]> ∅)) in
  match tips !! ProductivityCategory.MODERATELY_PRODUCTIVE with
  | None => Raise (KeyError ProductivityCategory.MODERATELY_PRODUCTIVE)
  | Some fallback => Ok (default fallback (tips !! category))
  end.

Definition get_quick_wins (idle_hours social_media_hours break_frequency : pynum)
    : result (list string) :=
  let quick_wins : list string := [] in
  quick_wins ←
    (if py_gt social_media_hours (PyInt 1) then
       product ← py_mul social_media_hours (PyInt 7);
       shown ← format_0f (py_min product (PyInt 20));
       Ok (quick_wins ++
           [("Reducing social media by 1 hour could boost your score by ~"
             ++ shown ++ " points")%string])%list
     else Ok quick_wins : result (list string));
  quick_wins ←
    (if py_gt idle_hours (PyInt 1) then
       product ← py_mul idle_hours (PyInt 6);
       shown ← format_0f (py_min product (PyInt 18));
       Ok (quick_wins ++
           [("Converting 1 idle hour to productive work could add ~"
             ++ shown ++ " points")%string])%list
     else Ok quick_wins : result (list string));
  quick_wins ←
    (if py_gt break_frequency (PyInt 8) then
       excess ← py_sub break_frequency (PyInt 5);
       potential_gain ← py_mul excess (PyInt 2);
       shown ← format_0f potential_gain;
       Ok (quick_wins ++
           [("Optimizing break frequency could add ~"
             ++ shown ++ " points")%string])%list
     else Ok quick_wins : result (list string));
  Ok (match quick_wins with
      | [] => ["Your metrics look good! Focus on maintaining consistency."]
      | _ => quick_wins
      end).

End Suggestions.

(** ** app/services/preprocessing.py *)

Module Preprocessing.

(** A numeric cell of a pandas column: [None] is a missing value (NaN). *)
Definition cell : Type := option Q.

(** A frame, as far as the code reads it: its columns by label.  The
    methods below address columns by label only. *)
Abbreviation DataFrame := (gmap string (list cell)).

(** A numpy array of rows. *)
Definition ndarray : Type := list (list cell).

Inductive level : Type := DEBUG | INFO | WARNING.

(** What the class uses of scikit-learn's StandardScaler. *)
Class ScalerOps : Type := {
  StandardScaler : Type;
  new_scaler : StandardScaler;
  scaler_fit_transform : StandardScaler -> ndarray -> result (StandardScaler * ndarray);
  scaler_transform : StandardScaler -> ndarray -> result ndarray
}.

Definition FEATURE_COLUMNS : list string :=
  ["task_hours"; "idle_hours"; "social_media_usage"; "break_frequency";
   "tasks_completed"].

(** *** Column names ([clean_data], lines 127-143) *)

Definition is_upper (c : ascii) : bool :=
  (65 <=? nat_of_ascii c)%nat && (nat_of_ascii c <=? 90)%nat.

Definition lower_char (c : ascii) : ascii :=
  if is_upper c then ascii_of_nat (nat_of_ascii c + 32) else c.

Definition is_space (c : ascii) : bool :=
  let n := nat_of_ascii c in
  ((9 <=? n)%nat && (n <=? 13)%nat) || ((28 <=? n)%nat && (n <=? 32)%nat).

Fixpoint str_lower (s : string) : string :=
  match s with
  | EmptyString => EmptyString
  | String c r => String (lower_char c) (str_lower r)
  end.

Fixpoint lstrip (l : list ascii) : list ascii :=
  match l with
  | c :: r => if is_space c then lstrip r else l
  | [] => []
  end.

Definition str_strip (s : string) : string :=
  string_of_list_ascii
    (rev (lstrip (rev (lstrip (list_ascii_of_string s))))).

Fixpoint str_replace_char (a b : ascii) (s : string) : string :=
  match s with
  | EmptyString => EmptyString
  | String c r =>
      String (if Ascii.eqb c a then b else c) (str_replace_char a b r)
  end.

(** [.str.lower().str.strip().str.replace(' ', '_')] on one label; labels
    are taken to be ASCII. *)
Definition standardize_name (s : string) : string :=
  str_replace_char " " "_" (str_strip (str_lower s)).

Definition column_mapping : list (string * list string) :=
  [ ("task_hours", ["task_hours"; "taskhours"; "productive_hours"]);
    ("idle_hours", ["idle_hours"; "idlehours"; "idle_time"]);
    ("social_media_usage",
       ["social_media_usage"; "social_media_hours"; "social_media"; "socialmedia"]);
    ("break_frequency",
       ["break_frequency"; "breakfrequency"; "breaks"; "break_count"]);
    ("tasks_completed",
       ["tasks_completed"; "taskscompleted"; "completed_tasks"; "task_count"]) ].

(** [df.rename(columns={var: standard_name})] on the labels *)
Definition rename_label (var standard_name : string) (columns : list string)
    : list string :=
  (fun c => if bool_decide (c = var) then standard_name else c) <$> columns.

(** The inner loop over the variations of one standard name, with its
    [break] after the first rename. *)
Fixpoint rename_first_variation (standard_name : string) (variations : list string)
    (columns : list string) : list string :=
  match variations with
  | [] => columns
  | var :: rest =>
      if bool_decide (var ∈ columns) && bool_decide (standard_name ∉ columns)
      then rename_label var standard_name columns
      else rename_first_variation standard_name rest columns
  end.

(** The labels of the frame after lines 127-143 of [clean_data]. *)
Definition clean_data_columns (columns : list string) : list string :=
  foldl (fun cols '(standard_name, variations) =>
           rename_first_variation standard_name variations cols)
        (standardize_name <$> columns) column_mapping.

(** *** Missing values *)

Definition isna (x : cell) : bool :=
  match x with None => true | Some _ => false end.

Definition dropna (ser : list cell) : list Q := omap id ser.

Definition Qsum (l : list Q) : Q := foldr Qplus 0%Q l.

(** [Series.mean()]: NaN when no value is present. *)
Definition series_mean (ser : list cell) : cell :=
  match dropna ser with
  | [] => None
  | vals => Some (Qsum vals / inject_Z (Z.of_nat (length vals)))%Q
  end.

Fixpoint Qinsert (x : Q) (l : list Q) : list Q :=
  match l with
  | [] => [x]
  | y :: l' => if Qle_bool x y then x :: l else y :: Qinsert x l'
  end.

Definition Qsort (l : list Q) : list Q := foldr Qinsert [] l.

(** [Series.median()]: the middle value, or the mean of the two middle
    values; NaN when no value is present. *)
Definition series_median (ser : list cell) : cell :=
  let vals := Qsort (dropna ser) in
  let n := length vals in
  if (n =? 0)%nat then None
  else if Nat.odd n then vals !! (n / 2)%nat
  else
    match vals !! (n / 2 - 1)%nat, vals !! (n / 2)%nat with
    | Some a, Some b => Some ((a + b) / 2)%Q
    | _, _ => None
    end.

(** [Series.fillna(value)]: filling with NaN changes nothing. *)
Definition fillna (fill_value : cell) (ser : list cell) : list cell :=
  (fun x => match x with None => fill_value | Some _ => x end) <$> ser.


(** *** Clipping *)

Definition ranges : list (string * (Q * Q)) :=
  [ ("task_hours", (0, 24)%Q);
    ("idle_hours", (0, 24)%Q);
    ("social_media_usage", (0, 24)%Q);
    ("break_frequency", (0, 50)%Q);
    ("tasks_completed", (0, 100)%Q) ].

(** [Series.clip(min_val, max_val)] on one cell; NaN stays NaN. *)
Definition clip (min_val max_val : Q) (x : cell) : cell :=
  match x with
  | None => None
  | Some v =>
      match (v ?= min_val)%Q with
      | Lt => Some min_val
      | _ => match (v ?= max_val)%Q with
             | Gt => Some max_val
             | _ => Some v
             end
      end
  end.

Definition clip_values (df : DataFrame) : DataFrame :=
  foldl (fun df '(col, (min_val, max_val)) =>
           match df !! col with
           | None => df
           | Some ser => <[col := clip min_val max_val <$> ser]> df
           end)
        df ranges.

(** *** Feature matrix *)

(** [df[cols].values]: the rows over the selected columns; a missing label
    raises KeyError. *)
Fixpoint select_columns (df : DataFrame) (cols : list string)
    : result (list (list cell)) :=
  match cols with
  | [] => Ok []
  | col :: rest =>
      match df !! col with
      | None => Raise (KeyError col)
      | Some ser => sers ← select_columns df rest; Ok (ser :: sers)
      end
  end.

Definition rows_of (columns : list (list cell)) : ndarray :=
  match columns with
  | [] => []
  | first :: _ =>
      (fun r => (fun ser => default None (ser !! r)) <$> columns)
        <$> seq 0 (length first)
  end.

Definition values (df : DataFrame) (cols : list string) : result ndarray :=
  columns ← select_columns df cols; Ok (rows_of columns).

(** *** The preprocessor and its scaler *)

Section preprocessor.
Context `{ScalerOps}.

Record DataPreprocessor : Type := {
  scaler : StandardScaler;
  is_fitted : bool;
  scaler_path : string
}.

(** The outcome of a method: what it returns or raises, the object
    afterwards, and what it logged. *)
Record outcome (A : Type) : Type := {
  res : result A;
  self_after : DataPreprocessor;
  logged : list (level * string)
}.
Arguments res {A}.
Arguments self_after {A}.
Arguments logged {A}.

(** The loop that raises on the first feature column that is absent. *)
Fixpoint require_columns (cols : list string) (df : DataFrame) : result unit :=
  match cols with
  | [] => Ok tt
  | col :: rest =>
      match df !! col with
      | None => Raise (ValueError ("Missing required column: " ++ col))
      | Some _ => require_columns rest df
      end
  end.

Definition fit_transform (self : DataPreprocessor) (df : DataFrame) (fit : bool)
    : outcome ndarray :=
  match require_columns FEATURE_COLUMNS df with
  | Raise e => {| res := Raise e; self_after := self; logged := [] |}
  | Ok _ =>
    match values df FEATURE_COLUMNS with
    | Raise e => {| res := Raise e; self_after := self; logged := [] |}
    | Ok X =>
      if fit then
        match scaler_fit_transform (scaler self) X with
        | Raise e => {| res := Raise e; self_after := self; logged := [] |}
        | Ok (fitted, X_scaled) =>
            {| res := Ok X_scaled;
               self_after := {| scaler := fitted; is_fitted := true;
                                scaler_path := scaler_path self |};
               logged := [(INFO, "Fitted and transformed features")] |}
        end
      else if negb (is_fitted self) then
        {| res := Raise (ValueError
                    "Scaler not fitted. Call fit_transform first with fit=True");
           self_after := self; logged := [] |}
      else
        match scaler_transform (scaler self) X with
        | Raise e => {| res := Raise e; self_after := self; logged := [] |}
        | Ok X_scaled =>
            {| res := Ok X_scaled; self_after := self;
               logged := [(INFO, "Transformed features using existing scaler")] |}
        end
    end
  end.

Definition transform (self : DataPreprocessor) (df : DataFrame) : outcome ndarray :=
  fit_transform self df false.


End preprocessor.

Arguments res {_ A}.
Arguments self_after {_ A}.
Arguments logged {_ A}.

End Preprocessing.

(** ** app/services/ml_model.py *)

Module MLModel.
Import Preprocessing.

(** What the class uses of scikit-learn and joblib.  Each call may raise;
    [sk_predict_proba] is absent for an estimator without that method. *)
Class SklearnOps : Type := {
  Estimator : Type;
  Report : Type;
  sk_new : string -> Estimator;
  sk_fit : Estimator -> ndarray -> list string -> result Estimator;
  sk_predict : Estimator -> ndarray -> result (list string);
  sk_predict_proba : Estimator -> option (ndarray -> result (list (list Q)));
  train_test_split :
    ndarray -> list string -> Q ->
    result (ndarray * ndarray * list string * list string);
  accuracy_score : list string -> list string -> Q;
  classification_report :
    list string -> list string -> list string -> result Report;
  confusion_matrix : list string -> list string -> result (list (list Z));
  joblib_dump :
    Estimator * string * Q * list string -> string -> result unit
}.

Definition SUPPORTED_MODELS : list string :=
  ["logistic_regression"; "random_forest"; "decision_tree"].

Definition CATEGORY_CLASSES : list string :=
  [ ProductivityCategory.FAKE_PRODUCTIVITY;
    ProductivityCategory.MODERATELY_PRODUCTIVE;
    ProductivityCategory.HIGHLY_PRODUCTIVE ].

Section classifier.
Context `{SklearnOps}.

Record MLClassifier : Type := {
  model_type : string;
  model_path : string;
  model : option Estimator;
  is_trained : bool;
  training_accuracy : Q
}.

Record TrainingResults : Type := {
  results_model_type : string;
  results_accuracy : Q;
  results_train_size : nat;
  results_test_size : nat;
  results_classification_report : Report;
  results_confusion_matrix : list (list Z)
}.

Definition _create_model (self : MLClassifier) (model_type' : option string)
    : result Estimator :=
  let model_type :=
    match model_type' with
    | Some t => if bool_decide (t = "") then model_type self else t
    | None => model_type self
    end in
  if bool_decide (model_type ∉ SUPPORTED_MODELS)
  then Raise (ValueError
           ("Unsupported model type: " ++ model_type
            ++ ". Supported: ['logistic_regression', 'random_forest', 'decision_tree']"))
  else Ok (sk_new model_type).

(** [train] assigns [self.model] before fitting and [self.is_trained]
    before building the report, so a failure in between leaves these
    assignments in place: the object after the call is returned with the
    outcome. *)
Definition train (self : MLClassifier) (X : ndarray) (y : list string) (test_size : Q)
    : result TrainingResults * MLClassifier :=
  match train_test_split X y test_size with
  | Raise e => (Raise e, self)
  | Ok (X_train, X_test, y_train, y_test) =>
    match _create_model self None with
    | Raise e => (Raise e, self)
    | Ok created =>
      let self1 := {| model_type := model_type self; model_path := model_path self;
                      model := Some created; is_trained := is_trained self;
                      training_accuracy := training_accuracy self |} in
      match sk_fit created X_train y_train with
      | Raise e => (Raise e, self1)
      | Ok fitted =>
        let self2 := {| model_type := model_type self; model_path := model_path self;
                        model := Some fitted; is_trained := is_trained self;
                        training_accuracy := training_accuracy self |} in
        match sk_predict fitted X_test with
        | Raise e => (Raise e, self2)
        | Ok y_pred =>
          let accuracy := accuracy_score y_test y_pred in
          let self3 := {| model_type := model_type self;
                          model_path := model_path self;
                          model := Some fitted; is_trained := true;
                          training_accuracy := accuracy |} in
          match classification_report y_test y_pred CATEGORY_CLASSES with
          | Raise e => (Raise e, self3)
          | Ok report =>
            match confusion_matrix y_test y_pred with
            | Raise e => (Raise e, self3)
            | Ok conf_matrix =>
              (Ok {| results_model_type := model_type self;
                     results_accuracy := accuracy;
                     results_train_size := length X_train;
                     results_test_size := length X_test;
                     results_classification_report := report;
                     results_confusion_matrix := conf_matrix |},
               self3)
            end
          end
        end
      end
    end
  end.

(** The row with 1.0 at the index of the predicted class (index 0 for a
    label outside [CATEGORY_CLASSES]). *)
Definition one_hot (pred : string) : list Q :=
  let idx :=
    default 0%nat (fst <$> list_find (fun cls => cls = pred) CATEGORY_CLASSES) in
  <[idx := 1%Q]> (replicate (length CATEGORY_CLASSES) 0%Q).

(** The guard [not self.is_trained or self.model is None] is the second
    branch of the match. *)
Definition predict (self : MLClassifier) (X : ndarray)
    : result (list string * list (list Q)) :=
  match negb (is_trained self), model self with
  | false, Some model =>
      predictions ← sk_predict model X;
      probabilities ←
        (match sk_predict_proba model with
         | Some predict_proba => predict_proba X
         | None => Ok (one_hot <$> (predictions : list string))
         end : result (list (list Q)));
      Ok (predictions, probabilities)
  | _, _ =>
      Raise (ValueError
               "Model not trained. Call train() first or load a trained model.")
  end.

(** Same guard as [predict].  The directory of the path is created by
    the same external call that writes the file. *)
Definition save_model (self : MLClassifier) (path : option string) : result unit :=
  match negb (is_trained self), model self with
  | false, Some model =>
      let save_path :=
        match path with
        | Some p => if bool_decide (p = "") then model_path self else p
        | None => model_path self
        end in
      joblib_dump
        (model, model_type self, training_accuracy self, CATEGORY_CLASSES)
        save_path
  | _, _ => Raise (ValueError "No trained model to save")
  end.

End classifier.

End MLModel.

(** ** app/utils/csv_parser.py *)

Module CSVParser.

Definition REQUIRED_COLUMNS : list (string * list string) :=
  [ ("task_hours", ["task_hours"; "taskhours"; "productive_hours"; "work_hours"]);
    ("idle_hours", ["idle_hours"; "idlehours"; "idle_time"; "unproductive_hours"]);
    ("social_media_usage",
       ["social_media_usage"; "social_media_hours"; "social_media"; "socialmedia";
        "social"]);
    ("break_frequency",
       ["break_frequency"; "breakfrequency"; "breaks"; "break_count"; "num_breaks"]);
    ("tasks_completed",
       ["tasks_completed"; "taskscompleted"; "completed_tasks"; "task_count";
        "tasks"]) ].

Definition MINIMUM_REQUIRED : list string := ["task_hours"; "idle_hours"].

(** [col in variations or any(var in col for var in variations)] *)
Definition matches (col : string) (variations : list string) : bool :=
  bool_decide (col ∈ variations) || existsb (fun var => is_substring var col) variations.

(** The inner loop over the labels of the frame: the first label that
    matches is entered in [column_mapping] and ends the loop, unless
    [standard_name] is a key of the mapping already. *)
Fixpoint map_first_match (standard_name : string) (variations : list string)
    (columns : list string) (column_mapping : gmap string string)
    : gmap string string :=
  match columns with
  | [] => column_mapping
  | col :: rest =>
      if matches col variations then
        if bool_decide (column_mapping !! standard_name = None)
        then <[col := standard_name]> column_mapping
        else map_first_match standard_name variations rest column_mapping
      else map_first_match standard_name variations rest column_mapping
  end.

Definition build_column_mapping (columns : list string) : gmap string string :=
  foldl (fun column_mapping '(standard_name, variations) =>
           map_first_match standard_name variations columns column_mapping)
        ∅ REQUIRED_COLUMNS.

(** The labels of the frame after [_standardize_columns]: cleaned as in
    [DataPreprocessor.clean_data], then renamed through the mapping. *)
Definition _standardize_columns (columns : list string) : list string :=
  let columns := Preprocessing.standardize_name <$> columns in
  let column_mapping := build_column_mapping columns in
  (fun col => default col (column_mapping !! col)) <$> columns.

End CSVParser.

(** ** app/models/database.py: the in-memory fallback *)

Module Database.

(** A record as [create_analysis] builds it. *)
Record AnalysisRecord : Type := {
  id : string;
  user_id : string;
  user_name : string;
  task_hours : pynum;
  idle_hours : pynum;
  social_media_usage : pynum;
  break_frequency : pynum;
  tasks_completed : pynum;
  productivity_score : pynum;
  category_rule_based : string;
  category_ml : option string;
  suggestions : list string;
  created_at : string
}.

(** [_in_memory_history], the module-level [defaultdict(list)]; the methods
    below take it and give it back. *)
Abbreviation History := (gmap string (list AnalysisRecord)).

Definition _fallback_create (_in_memory_history : History) (record : AnalysisRecord)
    : AnalysisRecord * History :=
  let user_id := user_id record in
  (record,
   <[user_id := record :: default [] (_in_memory_history !! user_id)]>
     _in_memory_history).

Definition _fallback_get_history (_in_memory_history : History) (user_id : string)
    : list AnalysisRecord :=
  default [] (_in_memory_history !! user_id).

Definition _fallback_delete_history (_in_memory_history : History) (user_id : string)
    : Z * History :=
  let count := Z.of_nat (length (default [] (_in_memory_history !! user_id))) in
  (count, <[user_id := []]> _in_memory_history).






End Database.

(** * Definitions used to state the properties *)

Module Aux.
Import Scoring Suggestions Preprocessing MLModel.

(** The weighted sum the scorer clamps, over the rationals. *)
Definition weighted_sum (t i s b c : pynum) : Q :=
  (to_Q t * 8 + to_Q c * 5 - to_Q i * 6 - to_Q s * 7 - to_Q b * 2)%Q.

Definition clamp (q : Q) : Q := Qmax 0 (Qmin 100 q).

(** The triple the engine records for a rule that fires. *)
Definition triple_of (rule : SuggestionRule) : Z * string * string :=
  (priority rule, category rule, suggestion rule).

(** The triples behind the suggestions that [unique_by_category] keeps. *)
Fixpoint kept_by_category (seen : gset string) (l : list (Z * string * string))
    : list (Z * string * string) :=
  match l with
  | [] => []
  | tr :: rest =>
      if bool_decide (tr.1.2 ∉ seen) || bool_decide (tr.1.2 = "positive")
      then tr :: kept_by_category ({[tr.1.2]} ∪ seen) rest
      else kept_by_category seen rest
  end.

(** Executable stand-ins for the library calls, to run the model on
    examples: a scaler that centres each column on its mean and refuses to
    transform before it is fitted, and a classifier that always predicts
    the first label it was fitted on. *)
Definition column_at (X : ndarray) (j : nat) : list cell :=
  (fun row => default None (row !! j)) <$> X.

Definition centre (means : list cell) (row : list cell) : list cell :=
  zip_with (fun m x => match m, x with
                       | Some m, Some v => Some (v - m)%Q
                       | _, _ => x
                       end) means row.

Definition column_means (X : ndarray) : list cell :=
  (fun j => series_mean (column_at X j)) <$> seq 0 (length (default [] (head X))).

Definition centering_scaler : ScalerOps := {|
  StandardScaler := option (list cell);
  new_scaler := None;
  scaler_fit_transform := fun _ X =>
    Ok (Some (column_means X), centre (column_means X) <$> X);
  scaler_transform := fun fitted X =>
    match fitted with
    | None => Raise (LibraryError "NotFittedError")
    | Some means => Ok (centre means <$> X)
    end
|}.

Definition constant_classifier : SklearnOps := {|
  Estimator := option string;
  Report := unit;
  sk_new := fun _ => None;
  sk_fit := fun _ _ y => Ok (Some (default "Fake Productivity" (head y)));
  sk_predict := fun fitted X =>
    match fitted with
    | None => Raise (LibraryError "NotFittedError")
    | Some label => Ok (replicate (length X) label)
    end;
  sk_predict_proba := fun _ => None;
  train_test_split := fun X y _ => Ok (X, X, y, y);
  accuracy_score := fun _ _ => 1%Q;
  classification_report := fun _ _ _ => Ok tt;
  confusion_matrix := fun _ _ => Ok [];
  joblib_dump := fun _ _ => Ok tt
|}.

(** [DataPreprocessor()] and [MLClassifier()] when no saved scaler and no
    saved model exist. *)
Definition fresh_preprocessor : @DataPreprocessor centering_scaler :=
  @Build_DataPreprocessor centering_scaler None false "app/ml/scaler.pkl".

Definition fresh_classifier : @MLClassifier constant_classifier :=
  @Build_MLClassifier constant_classifier
    "random_forest" "app/ml/model.pkl" None false 0%Q.

Definition example_frame : DataFrame :=
  <["idle_hours" := [Some 1%Q; None; Some 5%Q; Some 3%Q]]> (
  <["notes" := [None; None; None; None]]> ∅).

(** What [generate_suggestions] cuts to [max_suggestions] entries. *)
Definition uncut (self : SuggestionEngine) (t i s b c eff score : pynum) : list string :=
  match kept_by_category ∅
          (list_sort_key (fun x => x.1.1)
             (collect_triggered (rules self) (build_metrics t i s b c eff score))) with
  | [] => _get_default_suggestions score
  | fired => fired.*2
  end.



(** A classifier like [constant_classifier] whose [fit] refuses an empty
    training set, as scikit-learn does. *)
Definition strict_classifier : SklearnOps := {|
  Estimator := option string;
  Report := unit;
  sk_new := fun _ => None;
  sk_fit := fun _ _ y =>
    match y with
    | [] => Raise (LibraryError "ValueError: Found array with 0 sample(s)")
    | label :: _ => Ok (Some label)
    end;
  sk_predict := fun fitted X =>
    match fitted with
    | None => Raise (LibraryError "NotFittedError")
    | Some label => Ok (replicate (length X) label)
    end;
  sk_predict_proba := fun _ => None;
  train_test_split := fun X y _ => Ok (X, X, y, y);
  accuracy_score := fun _ _ => 1%Q;
  classification_report := fun _ _ _ => Ok tt;
  confusion_matrix := fun _ _ => Ok [];
  joblib_dump := fun _ _ => Ok tt
|}.

(** A classifier that was trained before. *)
Definition trained_classifier : @MLClassifier strict_classifier :=
  @Build_MLClassifier strict_classifier
    "random_forest" "app/ml/model.pkl" (Some (Some "Highly Productive")) true 1%Q.

(** The first label that matches the variations of a standard name. *)
Definition first_match (variations columns : list string) : option string :=
  List.find (fun col => CSVParser.matches col variations) columns.

(** The mapping that enters, for every standard name in turn, the first
    label that matches it. *)
Definition first_match_mapping (columns : list string) : gmap string string :=
  foldl (fun column_mapping '(standard_name, variations) =>
           match first_match variations columns with
           | Some col => <[col := standard_name]> column_mapping
           | None => column_mapping
           end)
        ∅ CSVParser.REQUIRED_COLUMNS.

(** The store after a sequence of [_fallback_create] calls. *)
Definition create_all (h : Database.History) (records : list Database.AnalysisRecord)
    : Database.History :=
  foldl (fun h record => (Database._fallback_create h record).2) h records.




End Aux.

(** * Properties *)

(** ** Facts about the Python built-ins *)

Module PyFacts.

Lemma DBL_OVERFLOW_big : (2 ^ 64 < DBL_OVERFLOW)%Z.
Proof. reflexivity. Qed.

Lemma int_fits_representable n : int_fits n = true <-> representable (PyInt n).
Proof. unfold int_fits; simpl. apply Z.ltb_lt. Qed.

Lemma as_float_representable x : representable x -> as_float x = Ok (to_Q x).
Proof.
  destruct x as [n|q]; simpl; [|reflexivity].
  intros H. unfold float_of_int.
  apply int_fits_representable in H. now rewrite H.
Qed.

Lemma as_float_Ok x q : as_float x = Ok q -> representable x /\ q = to_Q x.
Proof.
  destruct x as [n|p]; simpl.
  - unfold float_of_int. destruct (int_fits n) eqn:E; [|discriminate].
    intros [= <-]. split; [|reflexivity]. now apply int_fits_representable.
  - intros [= <-]. split; [exact I | reflexivity].
Qed.

Lemma as_float_overflow x :
  ~ representable x ->
  as_float x = Raise (OverflowError "int too large to convert to float").
Proof.
  destruct x as [n|q]; simpl; [|tauto].
  intros H. unfold float_of_int.
  destruct (int_fits n) eqn:E; [|reflexivity].
  apply int_fits_representable in E. contradiction.
Qed.

(** Arithmetic against a float operand: the other operand is converted. *)
Lemma py_mul_float x w :
  representable x -> py_mul x (PyFloat w) = Ok (PyFloat (to_Q x * w)).
Proof.
  intros H. unfold py_mul.
  destruct x as [n|q]; simpl in *.
  - pose proof (as_float_representable (PyInt n) H) as E. simpl in E.
    now rewrite E.
  - reflexivity.
Qed.

Lemma py_mul_float_Ok x w y :
  py_mul x (PyFloat w) = Ok y -> representable x /\ y = PyFloat (to_Q x * w).
Proof.
  unfold py_mul. destruct x as [n|q]; simpl.
  - unfold float_of_int. destruct (int_fits n) eqn:E; simpl; [|discriminate].
    intros [= <-]. split; [now apply int_fits_representable | reflexivity].
  - intros [= <-]. split; [exact I | reflexivity].
Qed.

Lemma py_mul_float_overflow x w :
  ~ representable x ->
  py_mul x (PyFloat w) = Raise (OverflowError "int too large to convert to float").
Proof.
  intros H. unfold py_mul. destruct x as [n|q]; [|simpl in H; tauto].
  pose proof (as_float_overflow (PyInt n) H) as E. simpl in E.
  change (as_float (PyInt n)) with (float_of_int n). now rewrite E.
Qed.

Lemma representable_dec x : {representable x} + {~ representable x}.
Proof.
  destruct x as [n|q]; simpl; [apply Z_lt_dec | left; exact I].
Qed.

(** Order tests decide the order of the denoted rationals. *)
Lemma py_lt_spec x y : py_lt x y = true <-> (to_Q x < to_Q y)%Q.
Proof.
  unfold py_lt. rewrite Qlt_alt.
  destruct (to_Q x ?= to_Q y)%Q; split; congruence.
Qed.

Lemma py_lt_false x y : py_lt x y = false <-> (to_Q y <= to_Q x)%Q.
Proof.
  unfold py_lt. destruct (Qcompare_spec (to_Q x) (to_Q y)) as [H|H|H];
    split; intros; try congruence; try lra.
Qed.

Lemma py_le_spec x y : py_le x y = true <-> (to_Q x <= to_Q y)%Q.
Proof.
  unfold py_le. destruct (Qcompare_spec (to_Q x) (to_Q y)) as [H|H|H];
    split; intros; try congruence; try lra.
Qed.

Lemma py_le_false x y : py_le x y = false <-> (to_Q y < to_Q x)%Q.
Proof.
  unfold py_le. destruct (Qcompare_spec (to_Q x) (to_Q y)) as [H|H|H];
    split; intros; try congruence; try lra.
Qed.

Lemma py_eq_spec x y : py_eq x y = true <-> (to_Q x == to_Q y)%Q.
Proof.
  unfold py_eq. destruct (Qcompare_spec (to_Q x) (to_Q y)) as [H|H|H];
    split; intros; try congruence; try lra.
Qed.

Lemma py_gt_spec x y : py_gt x y = true <-> (to_Q y < to_Q x)%Q.
Proof. apply py_lt_spec. Qed.

Lemma py_ge_spec x y : py_ge x y = true <-> (to_Q y <= to_Q x)%Q.
Proof. apply py_le_spec. Qed.

Lemma py_max_Q a b : (to_Q (py_max a b) == Qmax (to_Q a) (to_Q b))%Q.
Proof.
  unfold py_max. destruct (py_gt b a) eqn:E.
  - apply py_gt_spec in E. rewrite Q.max_r; lra.
  - apply py_lt_false in E. rewrite Q.max_l; lra.
Qed.

Lemma py_min_Q a b : (to_Q (py_min a b) == Qmin (to_Q a) (to_Q b))%Q.
Proof.
  unfold py_min. destruct (py_lt b a) eqn:E.
  - apply py_lt_spec in E. rewrite Q.min_r; lra.
  - apply py_lt_false in E. rewrite Q.min_l; lra.
Qed.

(** *** Rounding *)

Lemma round_half_even_floor q :
  round_half_even q = Qfloor q \/ round_half_even q = (Qfloor q + 1)%Z.
Proof.
  unfold round_half_even.
  destruct (q - inject_Z (Qfloor q) ?= 1 # 2)%Q; auto.
  destruct (Z.even (Qfloor q)); auto.
Qed.

#[global] Instance round_half_even_comp : Proper (Qeq ==> eq) round_half_even.
Proof.
  intros p q E. unfold round_half_even.
  rewrite (Qfloor_comp _ _ E).
  assert (Hc : (p - inject_Z (Qfloor q) ?= 1 # 2)%Q
               = (q - inject_Z (Qfloor q) ?= 1 # 2)%Q).
  { apply Qcompare_comp; [rewrite E|]; reflexivity. }
  now rewrite Hc.
Qed.

Lemma round_half_even_mono p q :
  (p <= q)%Q -> (round_half_even p <= round_half_even q)%Z.
Proof.
  intros Hpq.
  pose proof (Qfloor_resp_le _ _ Hpq) as Hf.
  destruct (Z.eq_dec (Qfloor p) (Qfloor q)) as [E|N].
  - unfold round_half_even. rewrite E.
    destruct (Qcompare_spec (p - inject_Z (Qfloor q)) (1 # 2));
      destruct (Qcompare_spec (q - inject_Z (Qfloor q)) (1 # 2));
      try lia; try lra; destruct (Z.even (Qfloor q)); lia.
  - destruct (round_half_even_floor p), (round_half_even_floor q); lia.
Qed.

Lemma round_half_even_Z n : round_half_even (inject_Z n) = n.
Proof.
  unfold round_half_even. rewrite Qfloor_Z.
  destruct (Qcompare_spec (inject_Z n - inject_Z n) (1 # 2));
    [exfalso; lra | reflexivity | exfalso; lra].
Qed.

Lemma round_half_even_near q :
  (q - (1 # 2) <= inject_Z (round_half_even q) <= q + (1 # 2))%Q.
Proof.
  unfold round_half_even.
  pose proof (Qfloor_le q) as Hl. pose proof (Qlt_floor q) as Hu.
  rewrite inject_Z_plus in Hu.
  destruct (Qcompare_spec (q - inject_Z (Qfloor q)) (1 # 2));
    [destruct (Z.even (Qfloor q))| |];
    rewrite ?inject_Z_plus; change (inject_Z 1) with 1%Q in *; lra.
Qed.

Lemma scale_pos n : (0 < inject_Z (10 ^ Z.of_nat n))%Q.
Proof.
  change 0%Q with (inject_Z 0). rewrite <- Zlt_Qlt.
  apply Z.pow_pos_nonneg; lia.
Qed.

#[global] Instance round_decimals_comp n : Proper (Qeq ==> Qeq) (round_decimals n).
Proof.
  intros p q E. unfold round_decimals. now rewrite E.
Qed.

Lemma round_decimals_mono n p q :
  (p <= q)%Q -> (round_decimals n p <= round_decimals n q)%Q.
Proof.
  intros H. unfold round_decimals.
  pose proof (scale_pos n) as Hs.
  set (s := inject_Z (10 ^ Z.of_nat n)) in *.
  apply Qmult_le_compat_r.
  - rewrite <- Zle_Qle. apply round_half_even_mono. nra.
  - apply Qlt_le_weak, Qinv_lt_0_compat, Hs.
Qed.

(** A value with at most [n] decimals is left as it is. *)
Lemma round_decimals_grid n k :
  (round_decimals n (inject_Z k / inject_Z (10 ^ Z.of_nat n))
   == inject_Z k / inject_Z (10 ^ Z.of_nat n))%Q.
Proof.
  unfold round_decimals.
  pose proof (scale_pos n) as Hs.
  set (s := inject_Z (10 ^ Z.of_nat n)) in *.
  assert (E : (inject_Z k / s * s == inject_Z k)%Q) by (field; lra).
  rewrite E, round_half_even_Z. reflexivity.
Qed.

Lemma round_decimals_Z n z : (round_decimals n (inject_Z z) == inject_Z z)%Q.
Proof.
  pose proof (scale_pos n) as Hs.
  assert (E : (inject_Z z
               == inject_Z (z * 10 ^ Z.of_nat n) / inject_Z (10 ^ Z.of_nat n))%Q).
  { rewrite inject_Z_mult. field. lra. }
  rewrite E at 1. rewrite round_decimals_grid. now rewrite <- E.
Qed.

Lemma round_decimals_range n (lo hi : Z) q :
  (inject_Z lo <= q <= inject_Z hi)%Q ->
  (inject_Z lo <= round_decimals n q <= inject_Z hi)%Q.
Proof.
  intros [Hlo Hhi]. split.
  - rewrite <- (round_decimals_Z n lo). now apply round_decimals_mono.
  - rewrite <- (round_decimals_Z n hi). now apply round_decimals_mono.
Qed.

(** [x / 2] never fails on a number that converts to a float. *)
Lemma py_truediv_two x :
  representable x -> py_truediv x (PyInt 2) = Ok (PyFloat (to_Q x / inject_Z 2)).
Proof.
  intros H. destruct x as [n|q].
  - unfold py_truediv, to_Q. change (2 =? 0)%Z with false. cbv beta iota zeta.
    set (y := (inject_Z n / inject_Z 2)%Q).
    destruct (Qle_bool (inject_Z DBL_OVERFLOW) (Qabs y)) eqn:E; [|reflexivity].
    exfalso. apply Qle_bool_iff in E.
    assert (Hy : (Qabs y < inject_Z DBL_OVERFLOW)%Q); [|lra].
    apply Qabs_Qlt_condition. subst y.
    simpl in H. apply Z.abs_lt in H. destruct H as [H1 H2].
    rewrite Zlt_Qlt in H1, H2. rewrite inject_Z_opp in H1.
    change (inject_Z 2) with 2%Q.
    split; [apply Qlt_shift_div_l | apply Qlt_shift_div_r]; lra.
  - reflexivity.
Qed.

(** *** Division *)

Lemma py_truediv_Ok x y v :
  py_truediv x y = Ok v -> (to_Q v == to_Q x / to_Q y)%Q.
Proof.
  unfold py_truediv. destruct x as [a|p], y as [b|q]; simpl.
  - destruct (b =? 0)%Z; [discriminate|].
    destruct (Qle_bool _ _); [discriminate|]. intros [= <-]. reflexivity.
  - unfold float_of_int. destruct (int_fits a); simpl; [|discriminate].
    destruct (Qeq_bool q 0); [discriminate|]. intros [= <-]. reflexivity.
  - unfold float_of_int. destruct (int_fits b); simpl; [|discriminate].
    destruct (Qeq_bool _ 0); [discriminate|]. intros [= <-]. reflexivity.
  - destruct (Qeq_bool q 0); [discriminate|]. intros [= <-]. reflexivity.
Qed.

Lemma py_truediv_returns x y :
  representable x -> representable y -> (1 <= to_Q y)%Q ->
  exists v, py_truediv x y = Ok v.
Proof.
  intros Hx Hy H1. unfold py_truediv.
  destruct x as [a|p], y as [b|q].
  - simpl in H1. 
    assert (Hb : (1 <= b)%Z) by (rewrite Zle_Qle; exact H1).
    destruct (Z.eqb_spec b 0) as [->|_]; [lia|].
    cbv zeta.
    destruct (Qle_bool (inject_Z DBL_OVERFLOW) (Qabs (inject_Z a / inject_Z b))) eqn:E;
      [|eexists; reflexivity].
    exfalso. apply Qle_bool_iff in E.
    assert (Hy' : (Qabs (inject_Z a / inject_Z b) < inject_Z DBL_OVERFLOW)%Q); [|lra].
    simpl in Hx. apply Z.abs_lt in Hx as [Hx1 Hx2].
    rewrite Zlt_Qlt in Hx1, Hx2. rewrite inject_Z_opp in Hx1.
    assert (Hd : (0 < inject_Z DBL_OVERFLOW)%Q).
    { pose proof DBL_OVERFLOW_big. change 0%Q with (inject_Z 0).
      rewrite <- Zlt_Qlt. lia. }
    apply Qabs_Qlt_condition.
    split; [apply Qlt_shift_div_l | apply Qlt_shift_div_r]; nra.
  - rewrite (as_float_representable _ Hx). simpl.
    destruct (Qeq_bool q 0) eqn:E; [|eexists; reflexivity].
    apply Qeq_bool_iff in E. simpl in H1. lra.
  - rewrite (as_float_representable _ Hy). simpl.
    destruct (Qeq_bool (inject_Z b) 0) eqn:E; [|eexists; reflexivity].
    apply Qeq_bool_iff in E. simpl in H1. lra.
  - simpl. destruct (Qeq_bool q 0) eqn:E; [|eexists; reflexivity].
    apply Qeq_bool_iff in E. simpl in H1. lra.
Qed.

(** *** Sorting and slicing *)

Section sort_key.
Context {A : Type} (key : A -> Z).

Lemma insert_by_key_perm x l : insert_by_key key x l ≡ₚ x :: l.
Proof.
  induction l as [|y l IH]; simpl; [reflexivity|].
  destruct (key x <=? key y)%Z; [reflexivity|].
  rewrite IH. apply Permutation_swap.
Qed.

Lemma list_sort_key_perm l : list_sort_key key l ≡ₚ l.
Proof.
  induction l as [|x l IH]; simpl; [reflexivity|].
  rewrite insert_by_key_perm. now rewrite IH.
Qed.

Lemma insert_by_key_sorted x l :
  StronglySorted (fun a b => (key a <= key b)%Z) l ->
  StronglySorted (fun a b => (key a <= key b)%Z) (insert_by_key key x l).
Proof.
  induction 1 as [|y l Hs IH Hy]; simpl.
  - repeat constructor.
  - destruct (Z.leb_spec (key x) (key y)) as [Hle|Hlt].
    + constructor; [now constructor|].
      constructor; [exact Hle|].
      eapply Forall_impl; [exact Hy|]. simpl. intros; lia.
    + constructor; [exact IH|].
      rewrite insert_by_key_perm. constructor; [lia | exact Hy].
Qed.

Lemma list_sort_key_sorted l :
  StronglySorted (fun a b => (key a <= key b)%Z) (list_sort_key key l).
Proof.
  induction l as [|x l IH]; simpl; [constructor|].
  now apply insert_by_key_sorted.
Qed.


End sort_key.

Section sublists.
Context {A : Type}.

Lemma sublist_Forall' (P : A -> Prop) l1 l2 :
  l1 `sublist_of` l2 -> Forall P l2 -> Forall P l1.
Proof.
  induction 1 as [|x l1 l2 _ IH|x l1 l2 _ IH]; intros HF.
  - constructor.
  - inversion_clear HF. constructor; auto.
  - inversion_clear HF. auto.
Qed.


End sublists.


End PyFacts.


(** ** The scorer *)

Module ScoringProps.
Import Scoring PyFacts Aux.


Lemma clamp_mono p q : (p <= q)%Q -> (clamp p <= clamp q)%Q.
Proof.
  intros H. unfold clamp.
  apply Q.max_le_compat_l, Q.min_le_compat_l, H.
Qed.

Lemma normalize_float q :
  exists n, _normalize_score (PyFloat q) = PyFloat n /\ (n == clamp q)%Q.
Proof.
  pose proof (py_max_Q ScoringConfig.MIN_SCORE
                (py_min ScoringConfig.MAX_SCORE (PyFloat q))) as Hm.
  rewrite py_min_Q in Hm. fold (_normalize_score (PyFloat q)) in Hm.
  assert (Hf : exists n, _normalize_score (PyFloat q) = PyFloat n).
  { unfold _normalize_score, py_max, py_min.
    destruct (py_lt _ _), (py_gt _ _); eexists; reflexivity. }
  destruct Hf as [n Hn]. exists n. split; [exact Hn|].
  rewrite Hn in Hm. exact Hm.
Qed.

Lemma classify_bands x :
  ((80 <= to_Q x)%Q -> _classify_category x = "Highly Productive") /\
  ((50 <= to_Q x < 80)%Q -> _classify_category x = "Moderately Productive") /\
  ((to_Q x < 50)%Q -> _classify_category x = "Fake Productivity").
Proof.
  unfold _classify_category.
  destruct (py_ge x ScoringConfig.HIGHLY_PRODUCTIVE_MIN) eqn:E1;
    [apply py_ge_spec in E1 | apply py_le_false in E1];
    (destruct (py_ge x ScoringConfig.MODERATELY_PRODUCTIVE_MIN) eqn:E2;
     [apply py_ge_spec in E2 | apply py_le_false in E2]);
    simpl in E1, E2; repeat split; intros; try reflexivity; exfalso; lra.
Qed.

Lemma calculate_score_representable t i s b c :
  representable t -> representable i -> representable s ->
  representable b -> representable c ->
  exists bd,
    calculate_score t i s b c =
    Ok {| score := py_round (_normalize_score (PyFloat (weighted_sum t i s b c))) 2;
          category :=
            _classify_category (_normalize_score (PyFloat (weighted_sum t i s b c)));
          breakdown := bd;
          raw_score := PyFloat (round_decimals 2 (weighted_sum t i s b c)) |}.
Proof.
  intros Ht Hi Hs Hb Hc. unfold calculate_score.
  unfold ScoringConfig.TASK_WEIGHT, ScoringConfig.TASKS_COMPLETED_WEIGHT,
    ScoringConfig.IDLE_WEIGHT, ScoringConfig.SOCIAL_MEDIA_WEIGHT,
    ScoringConfig.BREAK_WEIGHT.
  rewrite !py_mul_float by assumption.
  rewrite (py_truediv_two b Hb).
  eexists. reflexivity.
Qed.

Lemma calculate_score_Ok t i s b c r :
  calculate_score t i s b c = Ok r ->
  representable t /\ representable i /\ representable s /\
  representable b /\ representable c.
Proof.
  unfold calculate_score.
  destruct (py_mul t _) as [x1|] eqn:E1; [|discriminate].
  destruct (py_mul c _) as [x2|] eqn:E2; [|discriminate].
  destruct (py_mul i _) as [x3|] eqn:E3; [|discriminate].
  destruct (py_mul s _) as [x4|] eqn:E4; [|discriminate].
  destruct (py_mul b _) as [x5|] eqn:E5; [|discriminate].
  intros _.
  apply py_mul_float_Ok in E1, E2, E3, E4, E5. tauto.
Qed.

(** What a returned result holds, in terms of the clamped weighted sum. *)
Lemma calculate_score_inv t i s b c r :
  calculate_score t i s b c = Ok r ->
  exists n,
    (n == clamp (weighted_sum t i s b c))%Q /\
    score r = PyFloat (round_decimals 2 n) /\
    category r = _classify_category (PyFloat n) /\
    raw_score r = PyFloat (round_decimals 2 (weighted_sum t i s b c)).
Proof.
  intros H.
  destruct (calculate_score_Ok _ _ _ _ _ _ H) as (Ht & Hi & Hs & Hb & Hc).
  destruct (calculate_score_representable t i s b c Ht Hi Hs Hb Hc) as [bd E].
  rewrite E in H. injection H as <-. simpl.
  destruct (normalize_float (weighted_sum t i s b c)) as (n & En & Hn).
  exists n. rewrite En. simpl. auto.
Qed.

Lemma score_value t i s b c r :
  calculate_score t i s b c = Ok r ->
  (to_Q (score r) == round_decimals 2 (clamp (weighted_sum t i s b c)))%Q.
Proof.
  intros H. destruct (calculate_score_inv _ _ _ _ _ _ H) as (n & Hn & Hs & _).
  rewrite Hs. simpl. now rewrite Hn.
Qed.






(** C3: the returned score does not decrease when task_hours or
    tasks_completed grows, and does not increase when idle_hours,
    social_media_hours or break_frequency grows, the four other inputs
    being the same. *)
Theorem C3_score_monotone :
  (forall t t' i s b c r r',
     calculate_score t i s b c = Ok r -> calculate_score t' i s b c = Ok r' ->
     (to_Q t <= to_Q t')%Q -> (to_Q (score r) <= to_Q (score r'))%Q) /\
  (forall t i s b c c' r r',
     calculate_score t i s b c = Ok r -> calculate_score t i s b c' = Ok r' ->
     (to_Q c <= to_Q c')%Q -> (to_Q (score r) <= to_Q (score r'))%Q) /\
  (forall t i i' s b c r r',
     calculate_score t i s b c = Ok r -> calculate_score t i' s b c = Ok r' ->
     (to_Q i <= to_Q i')%Q -> (to_Q (score r') <= to_Q (score r))%Q) /\
  (forall t i s s' b c r r',
     calculate_score t i s b c = Ok r -> calculate_score t i s' b c = Ok r' ->
     (to_Q s <= to_Q s')%Q -> (to_Q (score r') <= to_Q (score r))%Q) /\
  (forall t i s b b' c r r',
     calculate_score t i s b c = Ok r -> calculate_score t i s b' c = Ok r' ->
     (to_Q b <= to_Q b')%Q -> (to_Q (score r') <= to_Q (score r))%Q).
Proof.
  repeat split; intros * H H' Hle;
    rewrite (score_value _ _ _ _ _ _ H), (score_value _ _ _ _ _ _ H');
    apply round_decimals_mono, clamp_mono; unfold weighted_sum; lra.
Qed.

Lemma C3_score_monotone_witness :
  exists r r',
    calculate_score (PyFloat 4) (PyFloat 1) (PyFloat 1) (PyInt 3) (PyInt 5) = Ok r /\
    calculate_score (PyFloat 6.5) (PyFloat 1) (PyFloat 1) (PyInt 3) (PyInt 5) = Ok r' /\
    (to_Q (score r) <= to_Q (score r'))%Q.
Proof.
  eexists. eexists.
  split; [vm_compute; reflexivity|]. split; [vm_compute; reflexivity|].
  apply (proj1 C3_score_monotone
           (PyFloat 4) (PyFloat 6.5) (PyFloat 1) (PyFloat 1) (PyInt 3) (PyInt 5));
    [vm_compute; reflexivity | vm_compute; reflexivity | vm_compute; discriminate].
Defined.

(** One product with a float weight: it goes through when the input
    converts to a float and raises OverflowError otherwise. *)
Ltac convert x :=
  let H := fresh "H" in
  destruct (representable_dec x) as [H|H];
  [ rewrite (py_mul_float _ _ H)
  | rewrite (py_mul_float_overflow _ _ H); simpl; congruence ].

(** C9, as the specification states it, fails on an int that no double can
    hold: the product with the float weight raises OverflowError. *)
Lemma C9_huge_int_raises :
  calculate_score (PyFloat 1) (PyFloat 0) (PyFloat 0) (PyInt 0) (PyInt (2 ^ 1024))
  = Raise (OverflowError "int too large to convert to float").
Proof. vm_compute. reflexivity. Qed.

(** C9 (amended): calculate_score returns a ScoringResult exactly when each
    of its five inputs is a float or an int of magnitude below
    2^1024 - 2^970, whatever its sign and however far it lies outside the
    validated ranges; it raises OverflowError when some int input is
    larger than that. *)
Theorem C9_total_on_representable t i s b c :
  ((exists r, calculate_score t i s b c = Ok r) <->
   representable t /\ representable i /\ representable s /\
   representable b /\ representable c) /\
  (forall e, calculate_score t i s b c = Raise e ->
             e = OverflowError "int too large to convert to float").
Proof.
  split; [split|].
  - intros [r H]. exact (calculate_score_Ok _ _ _ _ _ _ H).
  - intros (Ht & Hi & Hs & Hb & Hc).
    destruct (calculate_score_representable t i s b c Ht Hi Hs Hb Hc) as [bd E].
    eexists; exact E.
  - intros e. unfold calculate_score.
    unfold ScoringConfig.TASK_WEIGHT, ScoringConfig.TASKS_COMPLETED_WEIGHT,
      ScoringConfig.IDLE_WEIGHT, ScoringConfig.SOCIAL_MEDIA_WEIGHT,
      ScoringConfig.BREAK_WEIGHT.
    convert t. convert c. convert i. convert s. convert b.
    rewrite (py_truediv_two b) by assumption. discriminate.
Qed.

Lemma C9_total_on_representable_witness :
  exists r,
    calculate_score (PyFloat (-3)) (PyInt 0) (PyFloat 1000) (PyInt (-7)) (PyInt 250)
    = Ok r.
Proof.
  apply (proj2 (proj1 (C9_total_on_representable
     (PyFloat (-3)) (PyInt 0) (PyFloat 1000) (PyInt (-7)) (PyInt 250)))).
  repeat split.
Defined.

End ScoringProps.

(** ** The suggestion engine *)

Module SuggestionsProps.
Import Suggestions PyFacts Aux.

Lemma unique_by_category_kept seen l :
  unique_by_category seen l = (kept_by_category seen l).*2.
Proof.
  revert seen. induction l as [|[[p c] s] l IH]; intros seen; simpl; [reflexivity|].
  destruct (_ || _); simpl; now rewrite IH.
Qed.

Lemma kept_sublist seen l : kept_by_category seen l `sublist_of` l.
Proof.
  revert seen. induction l as [|tr l IH]; intros seen; simpl; [constructor|].
  destruct (_ || _); [apply sublist_skip | apply sublist_cons]; apply IH.
Qed.



Lemma collect_triggered_filter rules metrics :
  collect_triggered rules metrics
  = triple_of <$> filter (fun rule => _check_rule rule metrics = true) rules.
Proof.
  induction rules as [|rule rest IH]; simpl; [reflexivity|].
  rewrite filter_cons. destruct (_check_rule rule metrics) eqn:E.
  - rewrite decide_True by reflexivity. rewrite fmap_cons, IH. reflexivity.
  - rewrite decide_False by discriminate. exact IH.
Qed.

Lemma generate_suggestions_inv self t i s b c score max out :
  generate_suggestions self t i s b c score max = Ok out ->
  exists eff,
    efficiency_ratio t c = Ok eff /\
    out = slice_to
            (match kept_by_category ∅
                     (list_sort_key (fun x => x.1.1)
                        (collect_triggered (rules self)
                           (build_metrics t i s b c eff score))) with
             | [] => _get_default_suggestions score
             | fired => fired.*2
             end) max.
Proof.
  unfold generate_suggestions.
  destruct (efficiency_ratio t c) as [eff|e]; simpl; [|discriminate].
  intros [= <-]. exists eff. split; [reflexivity|].
  rewrite unique_by_category_kept.
  destruct (kept_by_category _ _); reflexivity.
Qed.




(** C5, as the specification states it, fails when task_hours <= 0: the
    ratio is then 0, not tasks_completed, and the rule on efficiency_ratio
    fires although five tasks were completed. *)
Lemma C5_nonpositive_hours_give_zero :
  efficiency_ratio (PyFloat 0) (PyInt 5) = Ok (PyInt 0) /\
  ~ (to_Q (PyInt 0) == to_Q (PyInt 5) / Qmax (to_Q (PyFloat 0)) 1)%Q /\
  exists out,
    generate_suggestions new_engine (PyFloat 0) (PyFloat 0) (PyFloat 0)
                         (PyInt 5) (PyInt 5) (PyFloat 15) 5 = Ok out /\
    "You're spending time on tasks but completion rate is low. Focus on finishing tasks before starting new ones."
      ∈ out.
Proof.
  split; [reflexivity|]. split; [vm_compute; discriminate|].
  eexists. split; [vm_compute; reflexivity|].
  set_solver.
Qed.

(** C5 (amended): when task_hours > 0 the efficiency ratio is
    tasks_completed / max(task_hours, 1), with tasks_completed taken as it
    is (not clamped); when task_hours <= 0 the ratio is 0. *)
Theorem C5_efficiency_ratio t c :
  ((to_Q t <= 0)%Q -> efficiency_ratio t c = Ok (PyInt 0)) /\
  ((0 < to_Q t)%Q ->
     (forall v, efficiency_ratio t c = Ok v ->
                (to_Q v == to_Q c / Qmax (to_Q t) 1)%Q) /\
     (representable t -> representable c ->
      exists v, efficiency_ratio t c = Ok v)).
Proof.
  unfold efficiency_ratio. split.
  - intros H. destruct (py_gt t (PyInt 0)) eqn:E; [|reflexivity].
    exfalso. apply py_gt_spec in E. change (to_Q (PyInt 0)) with 0%Q in E. lra.
  - intros H.
    assert (E : py_gt t (PyInt 0) = true) by (apply py_gt_spec; exact H).
    rewrite E. split.
    + intros v Hv. apply py_truediv_Ok in Hv.
      rewrite Hv. apply Qdiv_comp; [reflexivity|]. apply py_max_Q.
    + intros Ht Hc. apply py_truediv_returns; [exact Hc| |].
      * unfold py_max. destruct (py_gt (PyInt 1) t); [|exact Ht].
        pose proof DBL_OVERFLOW_big. simpl. lia.
      * pose proof (py_max_Q t (PyInt 1)) as Hm.
        pose proof (Q.le_max_r (to_Q t) (to_Q (PyInt 1))) as Hr.
        change (to_Q (PyInt 1)) with 1%Q in *. lra.
Qed.

Lemma C5_efficiency_ratio_witness :
  exists v,
    efficiency_ratio (PyFloat 0.5) (PyInt 300) = Ok v /\ (to_Q v == 300)%Q.
Proof.
  eexists. split; [vm_compute; reflexivity|].
  rewrite (proj1 (proj2 (C5_efficiency_ratio (PyFloat 0.5) (PyInt 300)) eq_refl)
             _ eq_refl).
  vm_compute. reflexivity.
Defined.

End SuggestionsProps.

(** ** The preprocessor *)

Module PreprocessingProps.
Import Preprocessing MLModel PyFacts Aux.

(** *** Column names *)

Lemma rename_first_variation_present standard_name variations columns :
  standard_name ∈ columns ->
  rename_first_variation standard_name variations columns = columns.
Proof.
  intros Hin. induction variations as [|var rest IH]; simpl; [reflexivity|].
  rewrite (bool_decide_eq_false_2 (standard_name ∉ columns)) by auto.
  rewrite andb_false_r. exact IH.
Qed.

Lemma rename_first_variation_none standard_name variations columns :
  (forall v, v ∈ variations -> v ∉ columns) ->
  rename_first_variation standard_name variations columns = columns.
Proof.
  induction variations as [|var rest IH]; simpl; intros Hno; [reflexivity|].
  rewrite (bool_decide_eq_false_2 (var ∈ columns)) by (apply Hno; left).
  simpl. apply IH. intros v Hv. apply Hno. now right.
Qed.

Lemma rename_first_variation_first standard_name (pre : list string) var post columns :
  standard_name ∉ columns ->
  (forall v, v ∈ pre -> v ∉ columns) ->
  var ∈ columns ->
  rename_first_variation standard_name (pre ++ var :: post)%list columns
  = rename_label var standard_name columns.
Proof.
  intros Hstd Hpre Hvar. induction pre as [|p pre IH]; simpl.
  - rewrite (bool_decide_eq_true_2 (var ∈ columns) Hvar).
    rewrite (bool_decide_eq_true_2 (standard_name ∉ columns) Hstd). reflexivity.
  - rewrite (bool_decide_eq_false_2 (p ∈ columns)) by (apply Hpre; left).
    simpl. apply IH. intros v Hv. apply Hpre. now right.
Qed.

Lemma rename_label_other var standard_name columns i label :
  columns !! i = Some label -> label <> var ->
  rename_label var standard_name columns !! i = Some label.
Proof.
  intros Hi Hne. unfold rename_label.
  rewrite list_lookup_fmap, Hi. simpl.
  now rewrite (bool_decide_eq_false_2 (label = var) Hne).
Qed.

Lemma rename_first_variation_other standard_name variations columns i label :
  columns !! i = Some label -> label ∉ variations ->
  rename_first_variation standard_name variations columns !! i = Some label.
Proof.
  intros Hi. induction variations as [|var rest IH]; simpl; intros Hno; [exact Hi|].
  destruct (_ && _).
  - apply rename_label_other; [exact Hi|]. intros ->. apply Hno. left.
  - apply IH. intros Hin. apply Hno. now right.
Qed.

Lemma resolve_other (table : list (string * list string)) columns i label :
  columns !! i = Some label ->
  (forall standard_name variations,
     (standard_name, variations) ∈ table -> label ∉ variations) ->
  foldl (fun cols '(standard_name, variations) =>
           rename_first_variation standard_name variations cols)
        columns table !! i = Some label.
Proof.
  revert columns. induction table as [|[std vars] table IH]; intros columns Hi Hno;
    simpl; [exact Hi|].
  apply IH.
  - apply rename_first_variation_other; [exact Hi|]. apply (Hno std). left.
  - intros std' vars' Hin. apply (Hno std'). now right.
Qed.

(** C8, as the specification states it, fails: clean_data compares labels
    with its synonym table for equality only, so a label that merely
    contains "social" keeps its name. *)
Lemma C8_substring_not_matched :
  clean_data_columns ["social"; "Social Time"; "my social media"]
  = ["social"; "social_time"; "my_social_media"] /\
  "social_media_usage" ∉ clean_data_columns ["social"; "Social Time"; "my social media"].
Proof.
  split; [vm_compute; reflexivity|].
  apply (bool_decide_unpack _). vm_compute. exact I.
Qed.

(** C8 (amended): for each canonical feature name in turn, clean_data
    renames the first synonym of its table, in table order, that is a
    label of the frame, and only when the canonical name is not a label
    already; labels are compared for equality, so a normalized label that
    is none of the listed synonyms keeps its name. *)
Theorem C8_exact_first_match :
  (forall standard_name variations columns,
     (standard_name ∈ columns ->
      rename_first_variation standard_name variations columns = columns) /\
     (standard_name ∉ columns ->
      forall (pre : list string) var post,
        variations = (pre ++ var :: post)%list ->
        (forall v, v ∈ pre -> v ∉ columns) ->
        var ∈ columns ->
        rename_first_variation standard_name variations columns
        = rename_label var standard_name columns) /\
     ((forall v, v ∈ variations -> v ∉ columns) ->
      rename_first_variation standard_name variations columns = columns)) /\
  (forall columns i label,
     (standardize_name <$> columns) !! i = Some label ->
     (forall standard_name variations,
        (standard_name, variations) ∈ column_mapping -> label ∉ variations) ->
     clean_data_columns columns !! i = Some label) /\
  clean_data_columns
    [" Task Hours "; "Idle Time"; "SocialMedia"; "social_media"; "breaks";
     "break_count"; "tasks_completed"; "task_count"]
  = ["task_hours"; "idle_hours"; "socialmedia"; "social_media_usage";
     "break_frequency"; "break_count"; "tasks_completed"; "task_count"].
Proof.
  split; [|split].
  - intros std vars cols. split; [|split].
    + apply rename_first_variation_present.
    + intros Hstd pre var post -> Hpre Hvar.
      now apply rename_first_variation_first.
    + apply rename_first_variation_none.
  - intros columns i label Hi Hno. unfold clean_data_columns.
    now apply resolve_other.
  - vm_compute. reflexivity.
Qed.

(** *** Missing values *)



Section zero_fill.
Variable strategy : string.
Hypothesis not_mean : strategy <> "mean".
Hypothesis not_median : strategy <> "median".

Let step (df : DataFrame) (col : string) : DataFrame :=
  match df !! col with
  | None => df
  | Some ser =>
      if existsb isna ser then
        let fill_value :=
          if bool_decide (strategy = "mean") then series_mean ser
          else if bool_decide (strategy = "median") then series_median ser
          else Some 0%Q in
        <[col := fillna fill_value ser]> df
      else df
  end.


End zero_fill.


(** *** Clipping and the feature matrix *)

Lemma clip_spec lo hi v :
  (lo <= hi)%Q ->
  exists w,
    clip lo hi (Some v) = Some w /\
    (lo <= w <= hi)%Q /\
    ((lo <= v <= hi)%Q -> w = v) /\
    ((v < lo)%Q -> w = lo) /\
    ((hi < v)%Q -> w = hi).
Proof.
  intros Hle. unfold clip.
  destruct (Qcompare_spec v lo) as [H1|H1|H1];
    destruct (Qcompare_spec v hi) as [H2|H2|H2];
    eexists; (split; [reflexivity|]);
    repeat split; intros; try reflexivity; try lra; exfalso; lra.
Qed.


Lemma require_columns_missing cols (df : DataFrame) col :
  col ∈ cols -> df !! col = None ->
  exists col',
    col' ∈ cols /\ df !! col' = None /\
    require_columns cols df = Raise (ValueError ("Missing required column: " ++ col')).
Proof.
  induction cols as [|c cols IH]; intros Hin Hnone.
  - inversion Hin.
  - simpl. destruct (df !! c) eqn:E.
    + apply elem_of_cons in Hin as [->|Hin]; [congruence|].
      destruct (IH Hin Hnone) as (col' & H1 & H2 & H3).
      exists col'. split; [now right|]. split; [exact H2 | exact H3].
    + exists c. split; [left|]. split; [exact E | reflexivity].
Qed.

Lemma require_columns_raises cols (df : DataFrame) e :
  require_columns cols df = Raise e -> exists msg, e = ValueError msg.
Proof.
  induction cols as [|c cols IH]; simpl; [discriminate|].
  destruct (df !! c); [exact IH|]. intros [= <-]. eexists; reflexivity.
Qed.

Lemma values_present (df : DataFrame) cols :
  require_columns cols df = Ok tt -> exists X, values df cols = Ok X.
Proof.
  unfold values.
  assert (Hs : require_columns cols df = Ok tt ->
               exists sers, select_columns df cols = Ok sers).
  { induction cols as [|c cols IH]; simpl; [eexists; reflexivity|].
    destruct (df !! c); [|discriminate].
    intros Hr. destruct (IH Hr) as [sers ->]. eexists; reflexivity. }
  intros Hr. destruct (Hs Hr) as [sers ->]. eexists; reflexivity.
Qed.

Section single_input.
Context `{ScalerOps}.


End single_input.

Lemma C8_exact_first_match_witness :
  clean_data_columns ["Idle Time"; "Social"] !! 1%nat = Some "social".
Proof.
  apply (proj1 (proj2 C8_exact_first_match) ["Idle Time"; "Social"] 1%nat "social").
  - reflexivity.
  - intros standard_name variations Hin.
    apply (bool_decide_unpack _).
    unfold column_mapping in Hin.
    repeat (apply elem_of_cons in Hin as [[= -> ->]|Hin]; [vm_compute; exact I|]).
    inversion Hin.
Defined.



End PreprocessingProps.

(** ** The classifier *)

Module MLModelProps.
Import Preprocessing MLModel PyFacts Aux PreprocessingProps.

Section usage_errors.
Context `{ScalerOps} `{SklearnOps}.

(** C6: predict raises ValueError whenever is_trained is false, and after
    a train that returned it runs the model instead; save_model raises
    ValueError whenever is_trained is false or no model is held; transform
    (fit_transform with fit=False) raises ValueError whenever the scaler is
    not fitted; fit_transform raises ValueError whenever one of the five
    feature columns is absent, whatever the value of fit. *)
Theorem C6_usage_errors_raise :
  (forall (self : MLClassifier) X,
     is_trained self = false ->
     predict self X
     = Raise (ValueError
                "Model not trained. Call train() first or load a trained model.")) /\
  (forall (self self' : MLClassifier) X y test_size results,
     train self X y test_size = (Ok results, self') ->
     is_trained self' = true /\
     exists fitted,
       model self' = Some fitted /\
       forall X',
         predict self' X'
         = (predictions ← sk_predict fitted X';
            probabilities ←
              (match sk_predict_proba fitted with
               | Some predict_proba => predict_proba X'
               | None => Ok (one_hot <$> (predictions : list string))
               end : result (list (list Q)));
            Ok (predictions, probabilities))) /\
  (forall (self : MLClassifier) path,
     is_trained self = false \/ model self = None ->
     save_model self path = Raise (ValueError "No trained model to save")) /\
  (forall (self : DataPreprocessor) (df : DataFrame),
     is_fitted self = false ->
     (exists msg, res (transform self df) = Raise (ValueError msg)) /\
     fit_transform self df false = transform self df /\
     self_after (transform self df) = self) /\
  (forall (self : DataPreprocessor) (df : DataFrame) fit col,
     col ∈ FEATURE_COLUMNS -> df !! col = None ->
     (exists col',
        col' ∈ FEATURE_COLUMNS /\ df !! col' = None /\
        res (fit_transform self df fit)
        = Raise (ValueError ("Missing required column: " ++ col'))) /\
     self_after (fit_transform self df fit) = self).
Proof.
  split; [|split; [|split; [|split]]].
  - intros self X Ht. unfold predict. rewrite Ht. reflexivity.
  - intros self self' X y ts results. unfold train.
    destruct (train_test_split X y ts) as [[[[Xtr Xte] ytr] yte]|]; [|congruence].
    destruct (_create_model self None) as [created|]; [|congruence].
    destruct (sk_fit created Xtr ytr) as [fitted|]; [|congruence].
    destruct (sk_predict fitted Xte) as [y_pred|]; [|congruence].
    destruct (classification_report _ _ _); [|congruence].
    destruct (confusion_matrix _ _); [|congruence].
    intros [= _ <-]. simpl. split; [reflexivity|].
    exists fitted. split; reflexivity.
  - intros self path [Ht|Hm]; unfold save_model.
    + rewrite Ht. reflexivity.
    + rewrite Hm. destruct (negb _); reflexivity.
  - intros self df Hf. split; [|split; [reflexivity|]].
    + unfold transform, fit_transform.
      destruct (require_columns FEATURE_COLUMNS df) as [[]|e] eqn:Er.
      * destruct (values_present _ _ Er) as [X ->].
        rewrite Hf. simpl. eexists; reflexivity.
      * simpl. destruct (require_columns_raises _ _ _ Er) as [msg ->].
        eexists; reflexivity.
    + unfold transform, fit_transform.
      destruct (require_columns FEATURE_COLUMNS df) as [[]|e]; [|reflexivity].
      destruct (values df FEATURE_COLUMNS); [|reflexivity].
      rewrite Hf. reflexivity.
  - intros self df fit col Hin Hnone.
    destruct (require_columns_missing _ _ _ Hin Hnone) as (col' & H1 & H2 & H3).
    unfold fit_transform. rewrite H3. simpl.
    split; [|reflexivity]. exists col'. auto.
Qed.

End usage_errors.

Lemma C6_usage_errors_raise_witness :
  predict fresh_classifier [[Some 1%Q]]
  = Raise (ValueError
             "Model not trained. Call train() first or load a trained model.") /\
  exists msg,
    res (transform fresh_preprocessor example_frame)
    = Raise (ValueError msg).
Proof.
  split.
  - apply (proj1 (@C6_usage_errors_raise centering_scaler constant_classifier)).
    reflexivity.
  - apply (proj1 (proj2 (proj2 (proj2
             (@C6_usage_errors_raise centering_scaler constant_classifier))))).
    reflexivity.
Defined.

End MLModelProps.

(** ** Bands, saturation and the breakdown of the score *)

Module ScoringBands.
Import Scoring PyFacts Aux ScoringProps.

Lemma round_decimals_near n q :
  (q - 1 / (2 * inject_Z (10 ^ Z.of_nat n)) <= round_decimals n q
   <= q + 1 / (2 * inject_Z (10 ^ Z.of_nat n)))%Q.
Proof.
  unfold round_decimals.
  pose proof (scale_pos n) as Hs.
  pose proof (round_half_even_near (q * inject_Z (10 ^ Z.of_nat n))) as [H1 H2].
  set (s := inject_Z (10 ^ Z.of_nat n)) in *.
  set (r := inject_Z (round_half_even (q * s))) in *.
  assert (Hne : ~ (s == 0)%Q) by lra.
  split.
  - apply Qle_shift_div_l; [exact Hs|].
    assert (E : ((q - 1 / (2 * s)) * s == q * s - (1 # 2))%Q) by (field; lra).
    rewrite E. exact H1.
  - apply Qle_shift_div_r; [exact Hs|].
    assert (E : ((q + 1 / (2 * s)) * s == q * s + (1 # 2))%Q) by (field; lra).
    rewrite E. exact H2.
Qed.

Lemma round_2_near q :
  (q - (1 # 200) <= round_decimals 2 q <= q + (1 # 200))%Q.
Proof.
  pose proof (round_decimals_near 2 q) as H.
  change (inject_Z (10 ^ Z.of_nat 2)) with (100 # 1)%Q in H.
  assert (E : (1 / (2 * (100 # 1)) == 1 # 200)%Q) by reflexivity.
  rewrite E in H. exact H.
Qed.

(** X1: get_category_thresholds returns three bands, one for each category
    label, and agrees with _classify_category: a score inside the band of a
    label is classified with that label, and every score k/100 between 0.00
    and 100.00 lies in the band of the label that _classify_category gives
    it. *)
Theorem thresholds_agree_with_classifier :
  exists th,
    get_category_thresholds = Ok th /\
    dom th = ({["Highly Productive"; "Moderately Productive"; "Fake Productivity"]}
              : gset string) /\
    (forall label lo hi x,
       th !! label = Some (lo, hi) ->
       (to_Q lo <= to_Q x <= to_Q hi)%Q -> _classify_category x = label) /\
    (forall k : Z,
       (0 <= k <= 10000)%Z ->
       exists lo hi,
         th !! _classify_category (PyFloat (inject_Z k / 100)) = Some (lo, hi) /\
         (to_Q lo <= inject_Z k / 100 <= to_Q hi)%Q).
Proof.
  eexists. split; [reflexivity|]. split; [|split].
  - rewrite !dom_insert_L, dom_empty_L. set_solver.
  - intros label lo hi x Hl Hx.
    destruct (classify_bands x) as (Hh & Hm & Hf).
    destruct (decide (label = "Fake Productivity")) as [->|n1].
    { vm_compute in Hl. injection Hl as <- <-. simpl in Hx.
      apply Hf. lra. }
    destruct (decide (label = "Moderately Productive")) as [->|n2].
    { vm_compute in Hl. injection Hl as <- <-. simpl in Hx.
      apply Hm. lra. }
    destruct (decide (label = "Highly Productive")) as [->|n3].
    { vm_compute in Hl. injection Hl as <- <-. simpl in Hx.
      apply Hh. lra. }
    exfalso. revert Hl.
    unfold ProductivityCategory.FAKE_PRODUCTIVITY,
      ProductivityCategory.MODERATELY_PRODUCTIVE,
      ProductivityCategory.HIGHLY_PRODUCTIVE.
    rewrite !lookup_insert_ne by congruence. rewrite lookup_empty. discriminate.
  - intros k Hk.
    destruct (classify_bands (PyFloat (inject_Z k / 100))) as (Hh & Hm & Hf).
    simpl in Hh, Hm, Hf.
    assert (Hq : (inject_Z k / 100 == inject_Z k * (1 # 100))%Q) by (field).
    assert (H0 : (0 <= inject_Z k)%Q)
      by (change 0%Q with (inject_Z 0); rewrite <- Zle_Qle; lia).
    assert (H1 : (inject_Z k <= 10000)%Q)
      by (change 10000%Q with (inject_Z 10000); rewrite <- Zle_Qle; lia).
    destruct (Z_le_gt_dec 8000 k) as [a|a].
    { assert (Ha : (8000 <= inject_Z k)%Q)
        by (change 8000%Q with (inject_Z 8000); rewrite <- Zle_Qle; lia).
      rewrite Hh by lra. eexists _, _. split; [reflexivity|]. simpl. lra. }
    assert (Ha : (inject_Z k <= 7999)%Q)
      by (change 7999%Q with (inject_Z 7999); rewrite <- Zle_Qle; lia).
    destruct (Z_le_gt_dec 5000 k) as [b|b].
    { assert (Hb : (5000 <= inject_Z k)%Q)
        by (change 5000%Q with (inject_Z 5000); rewrite <- Zle_Qle; lia).
      rewrite Hm by lra. eexists _, _. split; [reflexivity|]. simpl. lra. }
    assert (Hb : (inject_Z k <= 4999)%Q)
      by (change 4999%Q with (inject_Z 4999); rewrite <- Zle_Qle; lia).
    rewrite Hf by lra. eexists _, _. split; [reflexivity|]. simpl. lra.
Qed.





Lemma calculate_score_breakdown t i s b c r :
  calculate_score t i s b c = Ok r ->
  breakdown r =
    <["break_penalty" := PyFloat (round_decimals 2 (- (to_Q b * 2)))]> (
    <["social_media_penalty" := PyFloat (round_decimals 2 (- (to_Q s * 7)))]> (
    <["idle_penalty" := PyFloat (round_decimals 2 (- (to_Q i * 6)))]> (
    <["tasks_completed_contribution" := PyFloat (round_decimals 2 (to_Q c * 5))]> (
    <["task_contribution" := PyFloat (round_decimals 2 (to_Q t * 8))]> (
    <["breaks" := PyFloat (round_decimals 2 (to_Q b / inject_Z 2))]> (
    <["social" := py_round s 2]> (
    <["idle" := py_round i 2]> (
    <["productive" := py_round t 2]> ∅)))))))).
Proof.
  intros H.
  destruct (calculate_score_Ok _ _ _ _ _ _ H) as (Ht & Hi & Hs & Hb & Hc).
  revert H. unfold calculate_score.
  unfold ScoringConfig.TASK_WEIGHT, ScoringConfig.TASKS_COMPLETED_WEIGHT,
    ScoringConfig.IDLE_WEIGHT, ScoringConfig.SOCIAL_MEDIA_WEIGHT,
    ScoringConfig.BREAK_WEIGHT.
  rewrite !py_mul_float by assumption.
  rewrite (py_truediv_two b Hb).
  intros H. injection H as <-. reflexivity.
Qed.



(** *** The validator of the hour fields *)

(** X4: validate_hours moves a value by at most 0.005, is idempotent
    and monotone, and keeps a value of the field range [0, 24] inside it;
    the "productive" entry of the breakdown of a score computed from a
    validated task_hours is that validated value. *)
Theorem validate_hours_keeps_the_field_range (v : pynum) :
  (Qabs (to_Q (Schemas.validate_hours v) - to_Q v) <= 1 # 200)%Q /\
  (to_Q (Schemas.validate_hours (Schemas.validate_hours v))
   == to_Q (Schemas.validate_hours v))%Q /\
  ((0 <= to_Q v <= 24)%Q -> (0 <= to_Q (Schemas.validate_hours v) <= 24)%Q) /\
  (forall w, (to_Q v <= to_Q w)%Q ->
     (to_Q (Schemas.validate_hours v) <= to_Q (Schemas.validate_hours w))%Q) /\
  (forall i s b c r,
     calculate_score (Schemas.validate_hours v) i s b c = Ok r ->
     exists shown,
       breakdown r !! "productive" = Some shown /\
       (to_Q shown == to_Q (Schemas.validate_hours v))%Q).
Proof.
  unfold Schemas.validate_hours.
  assert (Hidem : (to_Q (py_round (py_round v 2) 2) == to_Q (py_round v 2))%Q).
  { destruct v as [n|q]; simpl; [reflexivity|].
    unfold round_decimals at 2. apply round_decimals_grid. }
  split; [|split; [exact Hidem|split; [|split]]].
  - destruct v as [n|q]; cbn [py_round to_Q].
    + apply Qabs_Qle_condition. lra.
    + pose proof (round_2_near q). apply Qabs_Qle_condition. lra.
  - intros Hr. destruct v as [n|q]; simpl in *; [exact Hr|].
    apply (round_decimals_range 2 0 24 q Hr).
  - intros w Hw.
    assert (Hq : forall x, (to_Q (py_round x 2) == round_decimals 2 (to_Q x))%Q).
    { intros [n|q]; simpl; [symmetry; apply round_decimals_Z | reflexivity]. }
    rewrite !Hq. apply round_decimals_mono, Hw.
  - intros i s b c r H. rewrite (calculate_score_breakdown _ _ _ _ _ _ H).
    eexists. split; [reflexivity | exact Hidem].
Qed.

End ScoringBands.

(** ** The suggestion engine beyond the ordering *)

Module EngineProps.
Import Scoring Suggestions PyFacts Aux SuggestionsProps.

Lemma default_suggestions_length score :
  (3 <= length (_get_default_suggestions score))%nat.
Proof.
  unfold _get_default_suggestions.
  destruct (py_ge score (PyInt 80)); [simpl; lia|].
  destruct (py_ge score (PyInt 50)); simpl; lia.
Qed.

Lemma slice_to_take {A} (l : list A) n :
  (0 <= n)%Z -> slice_to l n = take (Z.to_nat n) l.
Proof.
  intros H. unfold slice_to.
  destruct (n <? 0)%Z eqn:E; [apply Z.ltb_lt in E; lia | reflexivity].
Qed.

Lemma uncut_nonempty self t i s b c eff score :
  uncut self t i s b c eff score <> [].
Proof.
  unfold uncut. destruct (kept_by_category _ _) eqn:E.
  - pose proof (default_suggestions_length score).
    destruct (_get_default_suggestions score); [simpl in *; lia | discriminate].
  - discriminate.
Qed.

Lemma generate_suggestions_total self t i s b c score max eff :
  efficiency_ratio t c = Ok eff ->
  generate_suggestions self t i s b c score max
  = Ok (slice_to (uncut self t i s b c eff score) max).
Proof.
  intros E. unfold generate_suggestions. rewrite E. simpl.
  rewrite unique_by_category_kept. unfold uncut.
  destruct (kept_by_category _ _); reflexivity.
Qed.

(** X5: with max_suggestions of at least 1, generate_suggestions
    never returns an empty list. *)
Theorem suggestions_never_empty self t i s b c score max out :
  generate_suggestions self t i s b c score max = Ok out ->
  (1 <= max)%Z -> out <> [].
Proof.
  intros H Hmax.
  apply generate_suggestions_inv in H as (eff & _ & ->).
  fold (uncut self t i s b c eff score).
  pose proof (uncut_nonempty self t i s b c eff score) as Hne.
  rewrite slice_to_take by lia.
  destruct (uncut self t i s b c eff score); [congruence|].
  destruct (Z.to_nat max) eqn:E; [lia | discriminate].
Qed.

Lemma suggestions_never_empty_witness :
  exists out,
    generate_suggestions new_engine (PyFloat 8) (PyFloat 0) (PyFloat 0)
                         (PyInt 5) (PyInt 8) (PyFloat 60) 1 = Ok out /\
    out <> [].
Proof.
  eexists. split; [reflexivity|].
  apply (suggestions_never_empty new_engine (PyFloat 8) (PyFloat 0) (PyFloat 0)
           (PyInt 5) (PyInt 8) (PyFloat 60) 1 _ eq_refl). lia.
Defined.

(** X6: asking for fewer suggestions gives a prefix: for
    0 <= m1 <= m2, the call with max_suggestions = m1 returns the first m1
    entries of what the call with m2 returns. *)
Theorem fewer_suggestions_are_a_prefix self t i s b c score m1 m2 out2 :
  generate_suggestions self t i s b c score m2 = Ok out2 ->
  (0 <= m1 <= m2)%Z ->
  generate_suggestions self t i s b c score m1 = Ok (take (Z.to_nat m1) out2).
Proof.
  intros H Hm.
  destruct (generate_suggestions_inv _ _ _ _ _ _ _ _ _ H) as (eff & E & _).
  rewrite (generate_suggestions_total _ _ _ _ _ _ _ _ _ E) in H.
  injection H as <-.
  rewrite (generate_suggestions_total _ _ _ _ _ _ _ _ _ E).
  rewrite !slice_to_take by lia.
  rewrite take_take. f_equal. f_equal. lia.
Qed.

Lemma fewer_suggestions_are_a_prefix_witness :
  exists out2,
    generate_suggestions new_engine (PyFloat 1) (PyFloat 3) (PyFloat 4)
                         (PyInt 12) (PyInt 1) (PyFloat 95) 5 = Ok out2 /\
    generate_suggestions new_engine (PyFloat 1) (PyFloat 3) (PyFloat 4)
                         (PyInt 12) (PyInt 1) (PyFloat 95) 2 = Ok (take 2 out2).
Proof.
  eexists. split; [reflexivity|].
  apply (fewer_suggestions_are_a_prefix new_engine (PyFloat 1) (PyFloat 3) (PyFloat 4)
           (PyInt 12) (PyInt 1) (PyFloat 95) 2 5 _ eq_refl). lia.
Defined.

(** Every category met in the list and not seen before is kept, through
    the first triple of that category. *)
Lemma kept_covers seen l tr :
  tr ∈ l -> tr.1.2 ∉ seen ->
  exists tr' (pre post : list (Z * string * string)),
    tr' ∈ kept_by_category seen l /\ tr'.1.2 = tr.1.2 /\
    l = (pre ++ tr' :: post)%list /\ (tr = tr' \/ tr ∈ post).
Proof.
  revert seen. induction l as [|x l IH]; intros seen Hin Hseen.
  - inversion Hin.
  - simpl.
    destruct (decide (x.1.2 = tr.1.2)) as [Heq|Hne].
    + exists x, [], l.
      rewrite bool_decide_eq_true_2 by (rewrite Heq; exact Hseen). simpl.
      split; [left|]. split; [exact Heq|]. split; [reflexivity|].
      apply elem_of_cons in Hin as [Hin|Hin]; auto.
    + assert (Hin' : tr ∈ l).
      { apply elem_of_cons in Hin as [Hin|Hin]; [subst; congruence | exact Hin]. }
      destruct (bool_decide (x.1.2 ∉ seen) || bool_decide (x.1.2 = "positive")).
      * destruct (IH ({[x.1.2]} ∪ seen) Hin') as (tr' & pre & post & H1 & H2 & H3 & H4).
        { intros [Hx|Hx]%elem_of_union; [|contradiction].
          apply elem_of_singleton in Hx. congruence. }
        exists tr', (x :: pre), post.
        split; [right; exact H1|]. split; [exact H2|].
        split; [simpl; f_equal; exact H3 | exact H4].
      * destruct (IH seen Hin' Hseen) as (tr' & pre & post & H1 & H2 & H3 & H4).
        exists tr', (x :: pre), post.
        split; [exact H1|]. split; [exact H2|].
        split; [simpl; f_equal; exact H3 | exact H4].
Qed.

Lemma sorted_later_not_smaller (l pre post : list (Z * string * string)) tr' tr :
  StronglySorted (fun a b => (a.1.1 <= b.1.1)%Z) l ->
  l = (pre ++ tr' :: post)%list -> tr = tr' \/ tr ∈ post ->
  (tr'.1.1 <= tr.1.1)%Z.
Proof.
  intros Hs -> [->|Hin]; [lia|].
  induction pre as [|p pre IH]; simpl in Hs.
  - apply StronglySorted_inv in Hs as [_ Hall].
    rewrite Forall_forall in Hall. apply Hall, Hin.
  - apply StronglySorted_inv in Hs as [Hs _]. apply IH, Hs.
Qed.

Lemma kept_from_rules self metrics tr :
  tr ∈ kept_by_category ∅
         (list_sort_key (fun x => x.1.1) (collect_triggered (rules self) metrics)) ->
  exists rule,
    rule ∈ rules self /\ _check_rule rule metrics = true /\ tr = triple_of rule.
Proof.
  intros Hin.
  assert (Hsub := kept_sublist ∅
            (list_sort_key (fun x => x.1.1) (collect_triggered (rules self) metrics))).
  apply (fun H => elem_of_sublist _ _ _ H Hsub) in Hin.
  rewrite list_sort_key_perm, collect_triggered_filter in Hin.
  apply list_elem_of_fmap in Hin as (rule & -> & Hin).
  apply list_elem_of_filter in Hin as [Hc Hin]. eauto.
Qed.

Lemma fired_in_sorted self metrics rule :
  rule ∈ rules self -> _check_rule rule metrics = true ->
  triple_of rule
  ∈ list_sort_key (fun x => x.1.1) (collect_triggered (rules self) metrics).
Proof.
  intros Hin Hc. rewrite list_sort_key_perm, collect_triggered_filter.
  apply list_elem_of_fmap. exists rule. split; [reflexivity|].
  apply list_elem_of_filter. auto.
Qed.

(** X7: when max_suggestions is at least the number of rules, every
    category of a rule that fires is represented in the result, by the
    suggestion of a firing rule of that category whose priority number is
    not larger. *)
Theorem every_fired_category_is_represented
    self t i s b c score max out eff rule :
  generate_suggestions self t i s b c score max = Ok out ->
  efficiency_ratio t c = Ok eff ->
  rule ∈ rules self ->
  _check_rule rule (build_metrics t i s b c eff score) = true ->
  (Z.of_nat (length (rules self)) <= max)%Z ->
  exists rule',
    rule' ∈ rules self /\
    _check_rule rule' (build_metrics t i s b c eff score) = true /\
    category rule' = category rule /\
    (priority rule' <= priority rule)%Z /\
    suggestion rule' ∈ out.
Proof.
  intros H E Hin Hc Hmax.
  rewrite (generate_suggestions_total _ _ _ _ _ _ _ _ _ E) in H. injection H as <-.
  set (metrics := build_metrics t i s b c eff score) in *.
  set (sorted := list_sort_key (fun x => x.1.1)
                   (collect_triggered (rules self) metrics)).
  destruct (kept_covers ∅ sorted (triple_of rule))
    as (tr' & pre & post & Hk & Hcat & Hl & Hpos).
  { apply fired_in_sorted; assumption. }
  { apply not_elem_of_empty. }
  destruct (kept_from_rules self metrics tr' Hk) as (rule' & Hin' & Hc' & ->).
  exists rule'. split; [exact Hin'|]. split; [exact Hc'|]. split; [exact Hcat|].
  split.
  { apply (sorted_later_not_smaller sorted pre post (triple_of rule') (triple_of rule));
      [apply list_sort_key_sorted | exact Hl | exact Hpos]. }
  unfold uncut. fold metrics. fold sorted.
  assert (Hlen : (length (kept_by_category ∅ sorted) <= length (rules self))%nat).
  { etransitivity; [apply sublist_length, kept_sublist|].
    unfold sorted. rewrite list_sort_key_perm, collect_triggered_filter, length_fmap.
    apply length_filter. }
  rewrite slice_to_take by lia.
  destruct (kept_by_category ∅ sorted) as [|k ks] eqn:Ek; [inversion Hk|].
  rewrite take_ge by (rewrite length_fmap; lia).
  apply list_elem_of_fmap. exists (triple_of rule'). split; [reflexivity | exact Hk].
Qed.

Lemma every_fired_category_is_represented_witness :
  exists rule',
    rule' ∈ rules new_engine /\
    category rule' = "focus" /\
    suggestion rule' ∈
      slice_to (uncut new_engine (PyFloat 1) (PyFloat 5) (PyFloat 4) (PyInt 12)
                  (PyInt 1) (PyFloat 1) (PyFloat 10)) 15.
Proof.
  destruct (every_fired_category_is_represented new_engine
              (PyFloat 1) (PyFloat 5) (PyFloat 4) (PyInt 12) (PyInt 1) (PyFloat 10) 15
              _ (PyFloat 1)
              (default {| condition := EmptyString; threshold := PyInt 0;
                          comparison := EmptyString; suggestion := EmptyString;
                          priority := 0; category := EmptyString |}
                       (rules new_engine !! 0%nat))
              eq_refl)
    as (rule' & H1 & _ & H3 & _ & H5).
  - vm_compute. reflexivity.
  - vm_compute. left.
  - vm_compute. reflexivity.
  - vm_compute. discriminate.
  - exists rule'. auto.
Defined.

Lemma slice_to_sublist {A} (l : list A) n : slice_to l n `sublist_of` l.
Proof. unfold slice_to. destruct (n <? 0)%Z; apply sublist_take. Qed.

Lemma collect_triggered_none rules metrics :
  (forall rule, rule ∈ rules -> _check_rule rule metrics = false) ->
  collect_triggered rules metrics = [].
Proof.
  induction rules as [|rule rest IH]; intros Hnone; simpl; [reflexivity|].
  rewrite (Hnone rule) by left. apply IH. intros r Hr. apply Hnone. now right.
Qed.

(** X8: the default suggestions are returned exactly when no rule
    fires: then the result is the cut list of _get_default_suggestions, and
    as soon as one rule fires every returned text is the suggestion of a
    rule that fires. *)
Theorem defaults_only_when_no_rule_fires self t i s b c score max out eff :
  generate_suggestions self t i s b c score max = Ok out ->
  efficiency_ratio t c = Ok eff ->
  let metrics := build_metrics t i s b c eff score in
  ((forall rule, rule ∈ rules self -> _check_rule rule metrics = false) ->
     out = slice_to (_get_default_suggestions score) max) /\
  (forall rule, rule ∈ rules self -> _check_rule rule metrics = true ->
     Forall (fun text =>
               exists rule', rule' ∈ rules self /\ _check_rule rule' metrics = true /\
                             suggestion rule' = text) out).
Proof.
  intros H E metrics.
  rewrite (generate_suggestions_total _ _ _ _ _ _ _ _ _ E) in H. injection H as <-.
  unfold uncut. fold metrics.
  set (sorted := list_sort_key (fun x => x.1.1)
                   (collect_triggered (rules self) metrics)).
  split.
  - intros Hnone.
    assert (Hs : sorted = []).
    { unfold sorted. rewrite collect_triggered_none by exact Hnone. reflexivity. }
    rewrite Hs. reflexivity.
  - intros rule Hin Hc.
    destruct (kept_covers ∅ sorted (triple_of rule))
      as (tr' & _ & _ & Hk & _).
    { apply fired_in_sorted; assumption. }
    { apply not_elem_of_empty. }
    destruct (kept_by_category ∅ sorted) as [|k ks] eqn:Ek; [inversion Hk|].
    rewrite <- Ek.
    eapply sublist_Forall'; [apply slice_to_sublist|].
    rewrite Forall_forall. intros text Ht.
    apply list_elem_of_fmap in Ht as (tr & -> & Ht).
    rewrite Ek in Ht. rewrite <- Ek in Ht.
    destruct (kept_from_rules self metrics tr Ht) as (rule' & H1 & H2 & ->).
    exists rule'. auto.
Qed.

Lemma defaults_only_when_no_rule_fires_witness :
  exists out,
    generate_suggestions new_engine (PyFloat 8) (PyFloat 0) (PyFloat 0)
                         (PyInt 5) (PyInt 8) (PyFloat 60) 5 = Ok out /\
    out = slice_to (_get_default_suggestions (PyFloat 60)) 5.
Proof.
  eexists. split; [reflexivity|].
  apply (defaults_only_when_no_rule_fires new_engine (PyFloat 8) (PyFloat 0)
           (PyFloat 0) (PyInt 5) (PyInt 8) (PyFloat 60) 5 _ (PyFloat (8 # 8)) eq_refl).
  - reflexivity.
  - intros rule Hin. vm_compute in Hin.
    repeat (apply elem_of_cons in Hin as [->|Hin]; [vm_compute; reflexivity|]).
    inversion Hin.
Defined.

(** X9: on the metrics that generate_suggestions builds, _check_rule
    answers True exactly when the rule's condition names one of the metrics
    and its comparison is one of "gt", "lt", "gte", "lte", "eq" and holds
    between the metric and the threshold; an unknown condition or
    comparison gives False, not an exception. *)
Theorem check_rule_fires_iff rule t i s b c eff score :
  let metrics := build_metrics t i s b c eff score in
  _check_rule rule metrics = true <->
  exists value,
    metrics !! condition rule = Some value /\
    (comparison rule = "gt" /\ (to_Q (threshold rule) < to_Q value)%Q \/
     comparison rule = "lt" /\ (to_Q value < to_Q (threshold rule))%Q \/
     comparison rule = "gte" /\ (to_Q (threshold rule) <= to_Q value)%Q \/
     comparison rule = "lte" /\ (to_Q value <= to_Q (threshold rule))%Q \/
     comparison rule = "eq" /\ (to_Q value == to_Q (threshold rule))%Q).
Proof.
  intros metrics. unfold _check_rule.
  destruct (metrics !! condition rule) as [value|]; [|split; [discriminate|]].
  2: { intros (v & Hv & _). discriminate. }
  set (th := threshold rule).
  split.
  - intros H. exists value. split; [reflexivity|].
    destruct (decide (comparison rule = "eq")) as [e|n1].
    { rewrite e, lookup_insert in H. simpl in H. apply py_eq_spec in H. auto 10. }
    rewrite lookup_insert_ne in H by congruence.
    destruct (decide (comparison rule = "lte")) as [e|n2].
    { rewrite e, lookup_insert in H. simpl in H. apply py_le_spec in H. auto 10. }
    rewrite lookup_insert_ne in H by congruence.
    destruct (decide (comparison rule = "gte")) as [e|n3].
    { rewrite e, lookup_insert in H. simpl in H. apply py_ge_spec in H. auto 10. }
    rewrite lookup_insert_ne in H by congruence.
    destruct (decide (comparison rule = "lt")) as [e|n4].
    { rewrite e, lookup_insert in H. simpl in H. apply py_lt_spec in H. auto 10. }
    rewrite lookup_insert_ne in H by congruence.
    destruct (decide (comparison rule = "gt")) as [e|n5].
    { rewrite e, lookup_insert in H. simpl in H. apply py_gt_spec in H. auto 10. }
    rewrite lookup_insert_ne in H by congruence.
    rewrite lookup_empty in H. discriminate.
  - intros (v & [= <-] & [[e H]|[[e H]|[[e H]|[[e H]|[e H]]]]]); rewrite e.
    + apply py_gt_spec in H. vm_compute lookup. exact H.
    + apply py_lt_spec in H. vm_compute lookup. exact H.
    + apply py_ge_spec in H. vm_compute lookup. exact H.
    + apply py_le_spec in H. vm_compute lookup. exact H.
    + apply py_eq_spec in H. vm_compute lookup. exact H.
Qed.

Lemma tips_of_other_label category :
  category <> "Highly Productive" -> category <> "Fake Productivity" ->
  get_category_specific_tips category
  = get_category_specific_tips "Moderately Productive".
Proof.
  intros n3 n1.
  destruct (decide (category = "Moderately Productive")) as [->|n2]; [reflexivity|].
  cbv beta zeta delta [get_category_specific_tips
    ProductivityCategory.FAKE_PRODUCTIVITY ProductivityCategory.MODERATELY_PRODUCTIVE
    ProductivityCategory.HIGHLY_PRODUCTIVE].
  rewrite !lookup_insert, lookup_empty.
  rewrite !(decide_False (P := _ = category)) by congruence.
  reflexivity.
Qed.

(** X10: get_category_specific_tips never raises and returns at least
    four tips; every label other than "Highly Productive" and "Fake
    Productivity" gets the tips of "Moderately Productive", which differ
    from the tips of the two other categories. *)
Theorem tips_fall_back_to_moderately_productive :
  exists moderate,
    get_category_specific_tips "Moderately Productive" = Ok moderate /\
    (forall category,
       category <> "Highly Productive" -> category <> "Fake Productivity" ->
       get_category_specific_tips category = Ok moderate) /\
    (forall category,
       exists tips,
         get_category_specific_tips category = Ok tips /\ (4 <= length tips)%nat) /\
    get_category_specific_tips "Highly Productive" <> Ok moderate /\
    get_category_specific_tips "Fake Productivity" <> Ok moderate.
Proof.
  eexists. split; [vm_compute; reflexivity|].
  split; [intros category n3 n1; rewrite tips_of_other_label by assumption;
          vm_compute; reflexivity|].
  split; [|split; vm_compute; discriminate].
  intros category.
  destruct (decide (category = "Highly Productive")) as [->|n3].
  { eexists. split; [vm_compute; reflexivity | simpl; lia]. }
  destruct (decide (category = "Fake Productivity")) as [->|n1].
  { eexists. split; [vm_compute; reflexivity | simpl; lia]. }
  eexists. rewrite tips_of_other_label by assumption.
  split; [vm_compute; reflexivity | simpl; lia].
Qed.

Lemma format_0f_returns x : representable x -> exists shown, format_0f x = Ok shown.
Proof.
  intros H. unfold format_0f. rewrite (as_float_representable x H). simpl.
  eexists. reflexivity.
Qed.

Lemma capped_gain_shown product cap :
  (Z.abs cap < 2 ^ 64)%Z ->
  (forall n, product = PyInt n -> (0 <= n)%Z) ->
  exists shown, format_0f (py_min product (PyInt cap)) = Ok shown.
Proof.
  intros Hcap Hpos. apply format_0f_returns.
  pose proof DBL_OVERFLOW_big as Hbig.
  unfold py_min. destruct (py_lt (PyInt cap) product) eqn:E.
  - simpl. lia.
  - destruct product as [n|q]; [|exact I].
    apply py_lt_false in E. simpl in E. rewrite <- Zle_Qle in E.
    specialize (Hpos n eq_refl). simpl. lia.
Qed.

Lemma int_fits_small k : (Z.abs k < 2 ^ 64)%Z -> int_fits k = true.
Proof.
  intros H. apply int_fits_representable. simpl.
  pose proof DBL_OVERFLOW_big. lia.
Qed.

(** [min(x * k, cap)] is always shown when [x > 1]. *)
Lemma capped_gain_returns x k cap :
  (1 < to_Q x)%Q -> (0 < k < 2 ^ 64)%Z -> (0 <= cap < 2 ^ 64)%Z ->
  exists product shown,
    py_mul x (PyInt k) = Ok product /\
    format_0f (py_min product (PyInt cap)) = Ok shown.
Proof.
  intros Hx Hk Hcap. destruct x as [m|q].
  - simpl in Hx. change 1%Q with (inject_Z 1) in Hx. rewrite <- Zlt_Qlt in Hx.
    destruct (capped_gain_shown (PyInt (m * k)) cap) as [shown Hs]; [lia| |].
    { intros n [= <-]. nia. }
    exists (PyInt (m * k)), shown. split; [reflexivity | exact Hs].
  - destruct (capped_gain_shown (PyFloat (q * inject_Z k)) cap) as [shown Hs]; [lia| |].
    { intros n [=]. }
    exists (PyFloat (q * inject_Z k)), shown. split; [|exact Hs].
    simpl. unfold float_of_int. rewrite int_fits_small by lia. reflexivity.
Qed.

(** [(break_frequency - 5) * 2] is shown unless it is an int beyond the
    doubles. *)
Lemma break_gain_returns bf :
  (8 < to_Q bf)%Q ->
  (forall n, bf = PyInt n -> ((n - 5) * 2 < DBL_OVERFLOW)%Z) ->
  exists excess gain shown,
    py_sub bf (PyInt 5) = Ok excess /\ py_mul excess (PyInt 2) = Ok gain /\
    format_0f gain = Ok shown.
Proof.
  intros Hb Hfit. destruct bf as [n|q].
  - simpl in Hb. change 8%Q with (inject_Z 8) in Hb. rewrite <- Zlt_Qlt in Hb.
    destruct (format_0f_returns (PyInt ((n - 5) * 2))) as [shown Hs].
    { simpl. specialize (Hfit n eq_refl). lia. }
    exists (PyInt (n - 5)), (PyInt ((n - 5) * 2)), shown. auto.
  - destruct (format_0f_returns (PyFloat ((q - inject_Z 5) * inject_Z 2)))
      as [shown Hs]; [exact I|].
    exists (PyFloat (q - inject_Z 5)), (PyFloat ((q - inject_Z 5) * inject_Z 2)), shown.
    split; [|split; [|exact Hs]].
    + unfold py_sub, as_float, float_of_int.
      rewrite int_fits_small by (simpl; lia). reflexivity.
    + unfold py_mul, as_float, float_of_int.
      rewrite int_fits_small by (simpl; lia). reflexivity.
Qed.

Lemma break_gain_overflows n :
  (DBL_OVERFLOW <= (n - 5) * 2)%Z ->
  format_0f (PyInt ((n - 5) * 2))
  = Raise (OverflowError "int too large to convert to float").
Proof.
  intros H. unfold format_0f. rewrite as_float_overflow; [reflexivity|].
  simpl. lia.
Qed.

(** X11: get_quick_wins returns unless break_frequency is an int n
    for which (n - 5) * 2 is too large for a float; what it returns has
    between one and three entries, and is the single message "Your metrics
    look good! ..." exactly when social_media_hours <= 1, idle_hours <= 1
    and break_frequency <= 8. *)
Theorem quick_wins_shape idle_hours social_media_hours break_frequency :
  ((exists wins,
      get_quick_wins idle_hours social_media_hours break_frequency = Ok wins) <->
   (forall n, break_frequency = PyInt n -> ((n - 5) * 2 < DBL_OVERFLOW)%Z)) /\
  (forall wins,
     get_quick_wins idle_hours social_media_hours break_frequency = Ok wins ->
     (1 <= length wins <= 3)%nat /\
     (wins = ["Your metrics look good! Focus on maintaining consistency."] <->
      (to_Q social_media_hours <= 1 /\ to_Q idle_hours <= 1 /\
       to_Q break_frequency <= 8)%Q)).
Proof.
  unfold get_quick_wins.
  destruct (py_gt social_media_hours (PyInt 1)) eqn:E1;
    [apply py_gt_spec in E1 | apply py_lt_false in E1];
    (destruct (py_gt idle_hours (PyInt 1)) eqn:E2;
     [apply py_gt_spec in E2 | apply py_lt_false in E2]);
    (destruct (py_gt break_frequency (PyInt 8)) eqn:E3;
     [apply py_gt_spec in E3 | apply py_lt_false in E3]);
    change (to_Q (PyInt 1)) with 1%Q in *; change (to_Q (PyInt 8)) with 8%Q in *;
    try (destruct (capped_gain_returns social_media_hours 7 20 E1)
           as (p1 & s1 & -> & Hs1); [lia | lia |];
         cbn [mbind result_bind]; rewrite Hs1; cbn [mbind result_bind]);
    try (destruct (capped_gain_returns idle_hours 6 18 E2)
           as (p2 & s2 & -> & Hs2); [lia | lia |];
         cbn [mbind result_bind]; rewrite Hs2; cbn [mbind result_bind]).
  all: cbn [mbind result_bind app].
  all: try (split;
            [ split; [intros _ n ->; simpl in E3;
                      change 8%Q with (inject_Z 8) in E3;
                      rewrite <- Zle_Qle in E3;
                      pose proof DBL_OVERFLOW_big; lia
                     | intros _; eexists; reflexivity]
            | intros wins [= <-]; split; [simpl; lia|];
              split; [first [discriminate | intros _; repeat split; assumption]
                     | first [reflexivity | intros (H1 & H2 & H3); exfalso; lra]] ]).
  all: split.
  all: try (intros wins Hw; split;
    [ destruct (py_sub break_frequency (PyInt 5)) as [ex|]; [|discriminate];
      cbn [mbind result_bind] in Hw;
      destruct (py_mul ex (PyInt 2)) as [g|]; [|discriminate];
      cbn [mbind result_bind] in Hw;
      destruct (format_0f g) as [sh|]; [|discriminate];
      cbn [mbind result_bind app] in Hw; injection Hw as <-; simpl; lia
    | destruct (py_sub break_frequency (PyInt 5)) as [ex|]; [|discriminate];
      cbn [mbind result_bind] in Hw;
      destruct (py_mul ex (PyInt 2)) as [g|]; [|discriminate];
      cbn [mbind result_bind] in Hw;
      destruct (format_0f g) as [sh|]; [|discriminate];
      cbn [mbind result_bind app] in Hw; injection Hw as <-;
      split; [discriminate | intros (H1 & H2 & H3); exfalso; lra] ]).
  all: split.
  all: try (intros Hfit;
    destruct (break_gain_returns break_frequency E3 Hfit)
      as (ex & g & sh & -> & Hg & Hsh);
    cbn [mbind result_bind]; rewrite Hg; cbn [mbind result_bind];
    rewrite Hsh; cbn [mbind result_bind]; eexists; reflexivity).
  all: intros [wins Hw] n ->;
    destruct (Z_lt_ge_dec ((n - 5) * 2) DBL_OVERFLOW) as [Hlt|Hge]; [exact Hlt|];
    exfalso; cbn [py_sub py_mul mbind result_bind] in Hw;
    rewrite break_gain_overflows in Hw by lia; discriminate.
Qed.

Lemma quick_wins_shape_example :
  get_quick_wins (PyFloat 2.5) (PyInt 3) (PyInt 10)
  = Ok ["Reducing social media by 1 hour could boost your score by ~20 points";
        "Converting 1 idle hour to productive work could add ~15 points";
        "Optimizing break frequency could add ~10 points"].
Proof. vm_compute. reflexivity. Qed.

(** X12: the default suggestions depend on the score through its
    category only: two scores that _classify_category puts in the same
    category get the same default suggestions. *)
Theorem default_suggestions_follow_the_category (score score' : pynum) :
  _classify_category score = _classify_category score' ->
  _get_default_suggestions score = _get_default_suggestions score'.
Proof.
  unfold _classify_category, _get_default_suggestions.
  change (py_ge score (PyInt 80)) with (py_ge score ScoringConfig.HIGHLY_PRODUCTIVE_MIN).
  change (py_ge score' (PyInt 80))
    with (py_ge score' ScoringConfig.HIGHLY_PRODUCTIVE_MIN).
  change (py_ge score (PyInt 50))
    with (py_ge score ScoringConfig.MODERATELY_PRODUCTIVE_MIN).
  change (py_ge score' (PyInt 50))
    with (py_ge score' ScoringConfig.MODERATELY_PRODUCTIVE_MIN).
  destruct (py_ge score ScoringConfig.HIGHLY_PRODUCTIVE_MIN),
    (py_ge score' ScoringConfig.HIGHLY_PRODUCTIVE_MIN),
    (py_ge score ScoringConfig.MODERATELY_PRODUCTIVE_MIN),
    (py_ge score' ScoringConfig.MODERATELY_PRODUCTIVE_MIN);
    intros E; try reflexivity; discriminate E.
Qed.

Lemma default_suggestions_follow_the_category_witness :
  _get_default_suggestions (PyFloat 62.5) = _get_default_suggestions (PyInt 79).
Proof.
  apply default_suggestions_follow_the_category. reflexivity.
Defined.

End EngineProps.

(** ** Frames: clipping, imputation and the feature matrix *)

Module FrameProps.
Import Preprocessing PyFacts Aux PreprocessingProps.

(** One step of a loop that rewrites the column [k] when it is there. *)
Lemma update_lookup (g : list cell -> list cell) (df : DataFrame) k col :
  match df !! k with
  | None => df
  | Some ser => <[k := g ser]> df
  end !! col
  = if decide (col = k) then g <$> df !! col else df !! col.
Proof.
  destruct (decide (col = k)) as [->|Hne].
  - destruct (df !! k) as [ser|] eqn:E.
    + now rewrite lookup_insert_eq.
    + now rewrite E.
  - destruct (df !! k) as [ser|]; [|reflexivity].
    now rewrite lookup_insert_ne.
Qed.

Lemma clip_values_lookup (df : DataFrame) col :
  clip_values df !! col
  = if decide (col = "tasks_completed") then (fmap (clip 0 100)) <$> df !! col
    else if decide (col = "break_frequency") then (fmap (clip 0 50)) <$> df !! col
    else if decide (col = "social_media_usage") then (fmap (clip 0 24)) <$> df !! col
    else if decide (col = "idle_hours") then (fmap (clip 0 24)) <$> df !! col
    else if decide (col = "task_hours") then (fmap (clip 0 24)) <$> df !! col
    else df !! col.
Proof.
  unfold clip_values, ranges. cbn [foldl].
  rewrite !update_lookup.
  repeat (destruct (decide _) as [->|?]; [reflexivity|]).
  reflexivity.
Qed.

Lemma clip_values_ranged (df : DataFrame) col lo hi :
  (col, (lo, hi)) ∈ ranges ->
  clip_values df !! col = (fmap (clip lo hi)) <$> df !! col.
Proof.
  intros Hin. rewrite clip_values_lookup. unfold ranges in Hin.
  repeat (apply elem_of_cons in Hin as [[= -> -> ->]|Hin]; [reflexivity|]).
  inversion Hin.
Qed.

Lemma clip_values_other (df : DataFrame) col :
  col ∉ ranges.*1 -> clip_values df !! col = df !! col.
Proof.
  intros Hin. rewrite clip_values_lookup.
  repeat (destruct (decide _) as [->|?];
          [exfalso; apply Hin; vm_compute; set_solver|]).
  reflexivity.
Qed.

Lemma ranges_ordered col lo hi : (col, (lo, hi)) ∈ ranges -> (lo <= hi)%Q.
Proof.
  intros Hin. unfold ranges in Hin.
  repeat (apply elem_of_cons in Hin as [[= -> -> ->]|Hin]; [lra|]).
  inversion Hin.
Qed.

Lemma clip_idempotent lo hi x :
  (lo <= hi)%Q -> clip lo hi (clip lo hi x) = clip lo hi x.
Proof.
  intros Hle. destruct x as [v|]; [|reflexivity].
  unfold clip at 2.
  destruct (Qcompare_spec v lo) as [H1|H1|H1];
    destruct (Qcompare_spec v hi) as [H2|H2|H2]; unfold clip;
    repeat match goal with
           | |- context [(?a ?= ?b)%Q] =>
               destruct (Qcompare_spec a b); try reflexivity; try (exfalso; lra)
           end.
Qed.

(** X13: clip_values keeps the columns of the frame, leaves every
    column outside its table of ranges as it is, and in a ranged column
    keeps the length and the missing cells and puts every present value
    into the range: a value inside stays, one below becomes the lower
    bound, one above the upper bound. *)
Theorem clip_values_puts_cells_in_range (df : DataFrame) :
  dom (clip_values df) = dom df /\
  (forall col, col ∉ ranges.*1 -> clip_values df !! col = df !! col) /\
  (forall col lo hi ser,
     (col, (lo, hi)) ∈ ranges -> df !! col = Some ser ->
     exists clipped,
       clip_values df !! col = Some clipped /\
       length clipped = length ser /\
       forall (r : nat) (x : cell),
         ser !! r = Some x ->
         match x with
         | None => clipped !! r = Some None
         | Some v =>
             exists w,
               clipped !! r = Some (Some w) /\ (lo <= w <= hi)%Q /\
               ((lo <= v <= hi)%Q -> w = v) /\
               ((v < lo)%Q -> w = lo) /\ ((hi < v)%Q -> w = hi)
         end).
Proof.
  split; [|split].
  - apply set_eq. intros col. rewrite !elem_of_dom, clip_values_lookup.
    repeat (destruct (decide _); [rewrite fmap_is_Some; reflexivity|]).
    reflexivity.
  - apply clip_values_other.
  - intros col lo hi ser Hin Hser.
    rewrite (clip_values_ranged df col lo hi Hin), Hser. simpl.
    eexists. split; [reflexivity|]. split; [apply length_fmap|].
    intros r x Hr.
    assert (Hc : (clip lo hi <$> ser) !! r = Some (clip lo hi x))
      by (rewrite list_lookup_fmap, Hr; reflexivity).
    destruct x as [v|]; [|exact Hc].
    destruct (clip_spec lo hi v (ranges_ordered _ _ _ Hin)) as (w & Ew & Hw).
    exists w. split; [exact (eq_trans Hc (f_equal Some Ew)) | exact Hw].
Qed.

(** X14: clip_values is idempotent. *)
Theorem clip_values_idempotent (df : DataFrame) :
  clip_values (clip_values df) = clip_values df.
Proof.
  apply map_eq. intros col.
  rewrite (clip_values_lookup (clip_values df)), (clip_values_lookup df).
  repeat (destruct (decide _) as [->|?];
    [ destruct (df !! _) as [ser|]; [|reflexivity]; simpl; f_equal;
      rewrite <- list_fmap_compose; apply list_fmap_ext; intros _ x _; simpl;
      apply clip_idempotent; lra |]).
  reflexivity.
Qed.









(** *** The mean and the median of the present values *)








Lemma existsb_isna_false (ser : list cell) :
  existsb isna ser = false <-> Forall (fun x => x <> None) ser.
Proof.
  induction ser as [|[v|] ser IH]; simpl.
  - split; [constructor | reflexivity].
  - rewrite IH. split; [constructor; [discriminate|assumption]|].
    intros H. now inversion H.
  - split; [discriminate|]. intros H. inversion H; congruence.
Qed.












(** *** The feature matrix *)

Lemma select_columns_spec (df : DataFrame) cols columns :
  select_columns df cols = Ok columns ->
  Forall2 (fun col ser => df !! col = Some ser) cols columns.
Proof.
  revert columns. induction cols as [|col cols IH]; simpl; intros columns.
  - intros [= <-]. constructor.
  - destruct (df !! col) as [ser|] eqn:E; [|discriminate].
    destruct (select_columns df cols) as [sers|]; simpl; [|discriminate].
    intros [= <-]. constructor; [exact E | apply IH; reflexivity].
Qed.

Lemma select_columns_KeyError (df : DataFrame) cols e :
  select_columns df cols = Raise e ->
  exists col, col ∈ cols /\ df !! col = None /\ e = KeyError col.
Proof.
  induction cols as [|col cols IH]; simpl; [discriminate|].
  destruct (df !! col) as [ser|] eqn:E.
  - destruct (select_columns df cols) as [sers|e'] eqn:Es; simpl; [discriminate|].
    intros [= <-]. destruct (IH eq_refl) as (c & H1 & H2 & H3).
    exists c. split; [now right | auto].
  - intros [= <-]. exists col. split; [left | auto].
Qed.

(** X18: df[cols].values is the matrix of rows: every row has one
    entry for each selected column, there are as many rows as the first
    selected column has cells, and entry j of row r is cell r of column j;
    the only error is the KeyError of a selected label that the frame
    lacks. *)
Theorem values_is_the_row_matrix (df : DataFrame) (cols : list string) :
  (forall X,
     values df cols = Ok X ->
     Forall (fun row => length row = length cols) X /\
     (forall first ser,
        cols !! 0%nat = Some first -> df !! first = Some ser ->
        length X = length ser) /\
     (forall (r j : nat) row col ser,
        X !! r = Some row -> cols !! j = Some col -> df !! col = Some ser ->
        row !! j = Some (default None (ser !! r)))) /\
  (forall e,
     values df cols = Raise e ->
     exists col, col ∈ cols /\ df !! col = None /\ e = KeyError col).
Proof.
  unfold values. split.
  - intros X. destruct (select_columns df cols) as [columns|] eqn:E; [|discriminate].
    simpl. intros [= <-]. apply select_columns_spec in E.
    assert (Hlen : length cols = length columns) by (eapply Forall2_length, E).
    unfold rows_of. destruct columns as [|c0 columns'].
    { destruct cols; [|discriminate]. repeat split.
      - constructor.
      - intros first ser Hf. discriminate.
      - intros r j row col ser Hr. discriminate. }
    assert (Hfirst : forall first ser,
               cols !! 0%nat = Some first -> df !! first = Some ser -> ser = c0).
    { intros first ser Hf Hs. destruct cols as [|c cols']; [discriminate|].
      injection Hf as ->. apply Forall2_cons_1 in E as [E _].
      pose proof (eq_trans (eq_sym Hs) E) as Heq. now injection Heq. }
    set (columns := c0 :: columns') in *.
    split; [|split].
    + rewrite Forall_fmap. apply Forall_forall. intros r _.
      unfold compose. rewrite length_fmap. symmetry. exact Hlen.
    + intros first ser Hf Hs. rewrite length_fmap, length_seq.
      now rewrite (Hfirst first ser Hf Hs).
    + intros r j row col ser Hr Hj Hs.
      apply (proj1 (list_lookup_fmap_Some _ _ _ _)) in Hr as (r' & -> & Hr).
      apply lookup_seq in Hr as [-> _]. change (0 + r)%nat with r.
      destruct (Forall2_lookup_l _ _ _ _ _ E Hj) as (ser' & Hl & Hs').
      pose proof (eq_trans (eq_sym Hs) Hs') as Heq. injection Heq as <-.
      etransitivity; [apply list_lookup_fmap|].
      exact (f_equal (fmap _) Hl).
  - intros e. destruct (select_columns df cols) as [columns|e'] eqn:E; [discriminate|].
    simpl. intros [= <-]. apply (select_columns_KeyError _ _ _ E).
Qed.

End FrameProps.

(** ** What the stateful methods change *)

Module StateProps.
Import Preprocessing MLModel PyFacts Aux PreprocessingProps FrameProps.


Section preprocessor_state.
Context `{ScalerOps}.


End preprocessor_state.


Section classifier_state.
Context `{SklearnOps}.

Lemma create_model_spec (self : MLClassifier) :
  (model_type self ∈ SUPPORTED_MODELS ->
   _create_model self None = Ok (sk_new (model_type self))) /\
  (model_type self ∉ SUPPORTED_MODELS ->
   exists msg, _create_model self None = Raise (ValueError msg)).
Proof.
  unfold _create_model. split; intros Hin.
  - rewrite bool_decide_eq_false_2; [reflexivity | auto].
  - rewrite bool_decide_eq_true_2 by exact Hin. eexists. reflexivity.
Qed.

Ltac train_case :=
  simpl; repeat first [split | intro];
  try reflexivity; try assumption; try contradiction; try discriminate;
  try (eexists; reflexivity);
  try (match goal with H : Ok _ = Ok _ |- _ => injection H as <- end; reflexivity).

(** X20: train never changes model_type and model_path, never
    resets is_trained and never drops the model; with an unsupported
    model_type it fails and leaves the classifier as it was; a returned
    result names the model type and the accuracy that the classifier
    records. *)
Theorem train_keeps_what_the_classifier_has
    (self self' : MLClassifier) X y test_size r :
  train self X y test_size = (r, self') ->
  model_type self' = model_type self /\
  model_path self' = model_path self /\
  (is_trained self = true -> is_trained self' = true) /\
  (is_Some (model self) -> is_Some (model self')) /\
  (model_type self ∉ SUPPORTED_MODELS ->
   self' = self /\ exists e, r = Raise e) /\
  (forall results, r = Ok results ->
     model_type self ∈ SUPPORTED_MODELS /\
     results_model_type results = model_type self /\
     training_accuracy self' = results_accuracy results).
Proof.
  unfold train.
  destruct (train_test_split X y test_size) as [[[[Xtr Xte] ytr] yte]|];
    [|intros [= <- <-]; train_case].
  destruct (decide (model_type self ∈ SUPPORTED_MODELS)) as [Hin|Hin].
  2: { destruct (proj2 (create_model_spec self) Hin) as [msg ->].
       intros [= <- <-]. train_case. }
  rewrite (proj1 (create_model_spec self) Hin).
  destruct (sk_fit _ Xtr ytr) as [fitted|]; [|intros [= <- <-]; train_case].
  destruct (sk_predict fitted Xte) as [y_pred|]; [|intros [= <- <-]; train_case].
  destruct (classification_report _ _ _) as [report|];
    [|intros [= <- <-]; train_case].
  destruct (confusion_matrix _ _) as [conf|]; [|intros [= <- <-]; train_case].
  intros [= <- <-]. train_case.
Qed.

(** X21: train is not atomic: when fitting raises, train raises the
    same exception with self.model already replaced by the new, unfitted
    estimator, while is_trained and training_accuracy keep their values,
    so that a classifier trained before then predicts with the unfitted
    estimator. *)
Theorem failed_fit_leaves_an_unfitted_model
    (self : MLClassifier) X y test_size X_train X_test y_train y_test e :
  train_test_split X y test_size = Ok (X_train, X_test, y_train, y_test) ->
  model_type self ∈ SUPPORTED_MODELS ->
  sk_fit (sk_new (model_type self)) X_train y_train = Raise e ->
  exists self',
    train self X y test_size = (Raise e, self') /\
    model self' = Some (sk_new (model_type self)) /\
    is_trained self' = is_trained self /\
    training_accuracy self' = training_accuracy self /\
    (is_trained self = true ->
     forall X', predict self' X'
       = (predictions ← sk_predict (sk_new (model_type self)) X';
          probabilities ←
            (match sk_predict_proba (sk_new (model_type self)) with
             | Some predict_proba => predict_proba X'
             | None => Ok (one_hot <$> (predictions : list string))
             end : result (list (list Q)));
          Ok (predictions, probabilities))).
Proof.
  intros Hs Hin Hf. unfold train.
  rewrite Hs, (proj1 (create_model_spec self) Hin), Hf.
  eexists. split; [reflexivity|]. simpl.
  repeat split. intros Ht X'. unfold predict. simpl. rewrite Ht. reflexivity.
Qed.

Lemma one_hot_cases pred :
  (pred = "Fake Productivity" /\ one_hot pred = [1%Q; 0%Q; 0%Q]) \/
  (pred = "Moderately Productive" /\ one_hot pred = [0%Q; 1%Q; 0%Q]) \/
  (pred = "Highly Productive" /\ one_hot pred = [0%Q; 0%Q; 1%Q]) \/
  ((pred ∉ CATEGORY_CLASSES) /\ one_hot pred = [1%Q; 0%Q; 0%Q]).
Proof.
  destruct (decide (pred = "Fake Productivity")) as [->|n1]; [left; auto|].
  destruct (decide (pred = "Moderately Productive")) as [->|n2];
    [right; left; auto|].
  destruct (decide (pred = "Highly Productive")) as [->|n3];
    [right; right; left; auto|].
  right; right; right. split.
  - unfold CATEGORY_CLASSES, ProductivityCategory.FAKE_PRODUCTIVITY,
      ProductivityCategory.MODERATELY_PRODUCTIVE,
      ProductivityCategory.HIGHLY_PRODUCTIVE.
    intros Hin. repeat (apply elem_of_cons in Hin as [?|Hin]; [congruence|]).
    inversion Hin.
  - unfold one_hot, CATEGORY_CLASSES, ProductivityCategory.FAKE_PRODUCTIVITY,
      ProductivityCategory.MODERATELY_PRODUCTIVE,
      ProductivityCategory.HIGHLY_PRODUCTIVE.
    cbn [list_find]. rewrite !decide_False by congruence. reflexivity.
Qed.

(** X22: for a model without predict_proba, predict returns one
    probability row for each prediction; the row has one entry for each
    class, sums to 1, has 1 at the predicted class and 0 elsewhere, and is
    the row of "Fake Productivity" for a label outside CATEGORY_CLASSES. *)
Theorem fallback_probabilities_are_one_hot
    (self : MLClassifier) (fitted : Estimator) X predictions probabilities :
  model self = Some fitted -> sk_predict_proba fitted = None ->
  predict self X = Ok (predictions, probabilities) ->
  sk_predict fitted X = Ok predictions /\
  length probabilities = length predictions /\
  (forall (i : nat) pred,
     predictions !! i = Some pred ->
     exists row,
       probabilities !! i = Some row /\
       length row = length CATEGORY_CLASSES /\
       (foldr Qplus 0 row == 1)%Q /\
       (forall (k : nat) cls,
          CATEGORY_CLASSES !! k = Some cls ->
          pred ∈ CATEGORY_CLASSES ->
          row !! k = Some (if decide (cls = pred) then 1%Q else 0%Q)) /\
       (pred ∉ CATEGORY_CLASSES -> row = [1%Q; 0%Q; 0%Q])).
Proof.
  intros Hm Hp. unfold predict. rewrite Hm.
  destruct (negb (is_trained self)); [discriminate|].
  destruct (sk_predict fitted X) as [preds|]; [|discriminate].
  simpl. rewrite Hp. simpl. intros [= <- <-].
  split; [reflexivity|]. split; [apply length_fmap|].
  intros i pred Hi. exists (one_hot pred).
  split; [rewrite list_lookup_fmap, Hi; reflexivity|].
  destruct (one_hot_cases pred) as [[-> ->]|[[-> ->]|[[-> ->]|[Hn ->]]]].
  - split; [reflexivity|]. split; [reflexivity|]. split.
    + intros [|[|[|k]]] cls [= <-] _; reflexivity.
    + intros Hn. exfalso. apply Hn. unfold CATEGORY_CLASSES. set_solver.
  - split; [reflexivity|]. split; [reflexivity|]. split.
    + intros [|[|[|k]]] cls [= <-] _; reflexivity.
    + intros Hn. exfalso. apply Hn. unfold CATEGORY_CLASSES. set_solver.
  - split; [reflexivity|]. split; [reflexivity|]. split.
    + intros [|[|[|k]]] cls [= <-] _; reflexivity.
    + intros Hn. exfalso. apply Hn. unfold CATEGORY_CLASSES. set_solver.
  - split; [reflexivity|]. split; [reflexivity|]. split.
    + intros k cls _ Hin. contradiction.
    + reflexivity.
Qed.

End classifier_state.

Lemma train_keeps_what_the_classifier_has_witness :
  model_type (train fresh_classifier [[Some 1%Q]] ["Highly Productive"] (1 # 5)).2
  = "random_forest" /\
  is_trained (train fresh_classifier [[Some 1%Q]] ["Highly Productive"] (1 # 5)).2
  = true.
Proof.
  destruct (@train_keeps_what_the_classifier_has constant_classifier
              fresh_classifier
              (train fresh_classifier [[Some 1%Q]] ["Highly Productive"] (1 # 5)).2
              [[Some 1%Q]] ["Highly Productive"] (1 # 5)
              (train fresh_classifier [[Some 1%Q]] ["Highly Productive"] (1 # 5)).1
              (surjective_pairing _))
    as (H1 & _).
  split; [exact H1 | reflexivity].
Defined.

Lemma failed_fit_leaves_an_unfitted_model_witness :
  exists self',
    train trained_classifier [] [] (1 # 5)
    = (Raise (LibraryError "ValueError: Found array with 0 sample(s)"), self') /\
    model self' = Some None /\
    is_trained self' = true.
Proof.
  destruct (@failed_fit_leaves_an_unfitted_model strict_classifier
              trained_classifier [] [] (1 # 5) [] [] [] []
              (LibraryError "ValueError: Found array with 0 sample(s)"))
    as (self' & H1 & H2 & H3 & _).
  - reflexivity.
  - unfold SUPPORTED_MODELS. simpl. set_solver.
  - reflexivity.
  - exists self'. split; [exact H1|]. split; [exact H2 | exact H3].
Defined.

Lemma fallback_probabilities_are_one_hot_witness :
  exists predictions probabilities,
    predict trained_classifier [[Some 1%Q]; [Some 2%Q]]
    = Ok (predictions, probabilities) /\
    length probabilities = length predictions.
Proof.
  eexists _, _. split; [reflexivity|].
  apply (@fallback_probabilities_are_one_hot strict_classifier trained_classifier
           (Some "Highly Productive") [[Some 1%Q]; [Some 2%Q]] _ _
           eq_refl eq_refl eq_refl).
Defined.

End StateProps.

(** ** The column mapping of the CSV parser *)

Module CSVParserProps.
Import Preprocessing CSVParser PyFacts Aux.

Lemma map_first_match_free standard_name variations columns
    (column_mapping : gmap string string) :
  column_mapping !! standard_name = None ->
  map_first_match standard_name variations columns column_mapping
  = match first_match variations columns with
    | Some col => <[col := standard_name]> column_mapping
    | None => column_mapping
    end.
Proof.
  intros Hfree. unfold first_match.
  induction columns as [|col rest IH]; simpl; [reflexivity|].
  destruct (matches col variations); [|exact IH].
  rewrite bool_decide_eq_true_2 by exact Hfree. reflexivity.
Qed.

Lemma first_match_matches variations columns col :
  first_match variations columns = Some col ->
  col ∈ columns /\ matches col variations = true.
Proof.
  unfold first_match. intros H. apply find_some in H as [H1 H2].
  split; [apply list_elem_of_In, H1 | exact H2].
Qed.

(** A label that the variations do not match is not entered. *)
Lemma entry_lookup_None standard_name variations columns
    (column_mapping : gmap string string) label :
  column_mapping !! label = None -> matches label variations = false ->
  match first_match variations columns with
  | Some col => <[col := standard_name]> column_mapping
  | None => column_mapping
  end !! label = None.
Proof.
  intros Hm Hv. destruct (first_match variations columns) as [col|] eqn:E;
    [|exact Hm].
  apply first_match_matches in E as [_ E].
  rewrite lookup_insert_ne; [exact Hm|]. intros ->. congruence.
Qed.

Lemma guard_never_blocks columns :
  build_column_mapping columns = first_match_mapping columns.
Proof.
  unfold build_column_mapping, first_match_mapping, REQUIRED_COLUMNS.
  cbn [foldl].
  rewrite (map_first_match_free "task_hours") by apply lookup_empty.
  rewrite (map_first_match_free "idle_hours")
    by (apply entry_lookup_None; [apply lookup_empty | vm_compute; reflexivity]).
  rewrite (map_first_match_free "social_media_usage")
    by (repeat (apply entry_lookup_None; [|vm_compute; reflexivity]);
        apply lookup_empty).
  rewrite (map_first_match_free "break_frequency")
    by (repeat (apply entry_lookup_None; [|vm_compute; reflexivity]);
        apply lookup_empty).
  rewrite (map_first_match_free "tasks_completed")
    by (repeat (apply entry_lookup_None; [|vm_compute; reflexivity]);
        apply lookup_empty).
  reflexivity.
Qed.

Section table.
Variable columns : list string.

Let step (column_mapping : gmap string string) (entry : string * list string)
    : gmap string string :=
  let '(standard_name, variations) := entry in
  match first_match variations columns with
  | Some col => <[col := standard_name]> column_mapping
  | None => column_mapping
  end.

Lemma later_entries_keep (table : list (string * list string)) m label :
  (forall standard_name variations,
     (standard_name, variations) ∈ table ->
     first_match variations columns <> Some label) ->
  foldl step m table !! label = m !! label.
Proof.
  revert m. induction table as [|[s vars] table IH]; intros m Hno; simpl;
    [reflexivity|].
  rewrite IH by (intros s' vars' Hin; apply (Hno s' vars'); now right).
  unfold step. destruct (first_match vars columns) as [col|] eqn:E; [|reflexivity].
  apply lookup_insert_ne. intros ->. apply (Hno s vars); [left | exact E].
Qed.

Lemma entry_renames (pre post : list (string * list string)) s vars m label :
  first_match vars columns = Some label ->
  (forall standard_name variations,
     (standard_name, variations) ∈ post ->
     first_match variations columns <> Some label) ->
  foldl step m (pre ++ (s, vars) :: post)%list !! label = Some s.
Proof.
  intros Hf Hno. rewrite foldl_app. simpl.
  rewrite later_entries_keep by exact Hno.
  unfold step at 1. rewrite Hf. apply lookup_insert_eq.
Qed.

End table.

Lemma renamed_lookup (column_mapping : gmap string string) (columns : list string)
    (i : nat) label :
  columns !! i = Some label ->
  ((fun col => default col (column_mapping !! col)) <$> columns) !! i
  = Some (default label (column_mapping !! label)).
Proof. intros H. rewrite list_lookup_fmap, H. reflexivity. Qed.

(** X23: _standardize_columns keeps the number of labels; a cleaned
    label that matches no list of variations, neither exactly nor by
    containing a variation, is kept; and the first label that matches the
    variations of a standard name is renamed to it, unless it is also the
    first match of a later standard name. *)
Theorem csv_labels_follow_first_matches (columns : list string) :
  let cleaned := standardize_name <$> columns in
  length (_standardize_columns columns) = length columns /\
  (forall (i : nat) label,
     cleaned !! i = Some label ->
     (forall standard_name variations,
        (standard_name, variations) ∈ REQUIRED_COLUMNS ->
        matches label variations = false) ->
     _standardize_columns columns !! i = Some label) /\
  (forall (i : nat) label (pre post : list (string * list string))
          standard_name variations,
     cleaned !! i = Some label ->
     REQUIRED_COLUMNS = (pre ++ (standard_name, variations) :: post)%list ->
     first_match variations cleaned = Some label ->
     (forall later_name later,
        (later_name, later) ∈ post -> first_match later cleaned <> Some label) ->
     _standardize_columns columns !! i = Some standard_name).
Proof.
  intros cleaned. unfold _standardize_columns. fold cleaned.
  rewrite guard_never_blocks. unfold first_match_mapping.
  split; [unfold cleaned; now rewrite !length_fmap|]. split.
  - intros i label Hi Hno. rewrite (renamed_lookup _ _ _ _ Hi). f_equal.
    rewrite (later_entries_keep cleaned REQUIRED_COLUMNS ∅ label).
    + rewrite lookup_empty. reflexivity.
    + intros s vars Hin E. apply first_match_matches in E as [_ E].
      rewrite (Hno s vars Hin) in E. discriminate.
  - intros i label pre post s vars Hi Htab Hf Hno.
    rewrite (renamed_lookup _ _ _ _ Hi). f_equal. rewrite Htab.
    rewrite (entry_renames cleaned pre post s vars ∅ label Hf Hno). reflexivity.
Qed.

(** *** The column mapping of the CSV parser *)

Lemma entries_come_from_first_matches columns (table : list (string * list string))
    (m : gmap string string) col s :
  foldl (fun column_mapping '(standard_name, variations) =>
           match first_match variations columns with
           | Some col => <[col := standard_name]> column_mapping
           | None => column_mapping
           end) m table !! col = Some s ->
  m !! col = Some s \/
  exists variations,
    (s, variations) ∈ table /\ first_match variations columns = Some col.
Proof.
  revert m. induction table as [|[s' vars] table IH]; intros m; simpl; [auto|].
  intros H. apply IH in H as [H|(v & Hin & Hf)].
  - destruct (first_match vars columns) as [c|] eqn:E; [|auto].
    destruct (decide (c = col)) as [->|Hne].
    + rewrite lookup_insert_eq in H. injection H as ->.
      right. exists vars. split; [left | exact E].
    + rewrite lookup_insert_ne in H by exact Hne. auto.
  - right. exists v. split; [now right | exact Hf].
Qed.

(** X24: the guard "standard_name not in self.column_mapping" of
    _standardize_columns never blocks an entry: the mapping is the one
    that enters the first matching label of every standard name.  Each of
    its entries is a label of the frame that matches the variations of its
    standard name, and the renaming can give two columns the same
    label. *)
Theorem column_mapping_holds_first_matches (columns : list string) :
  build_column_mapping columns = first_match_mapping columns /\
  (forall col standard_name,
     build_column_mapping columns !! col = Some standard_name ->
     col ∈ columns /\
     exists variations,
       (standard_name, variations) ∈ REQUIRED_COLUMNS /\
       first_match variations columns = Some col /\
       matches col variations = true) /\
  (exists labels,
     NoDup labels /\ NoDup (standardize_name <$> labels) /\
     ~ NoDup (_standardize_columns labels)).
Proof.
  split; [apply guard_never_blocks|]. split.
  - intros col s. rewrite guard_never_blocks. unfold first_match_mapping.
    intros H. apply entries_come_from_first_matches in H as [H|(v & Hin & Hf)].
    { rewrite lookup_empty in H. discriminate. }
    destruct (first_match_matches _ _ _ Hf) as [H1 H2].
    split; [exact H1|]. exists v. auto.
  - exists ["Total Task Hours"; "task_hours"].
    split; [|split].
    + apply (bool_decide_unpack _). vm_compute. exact I.
    + apply (bool_decide_unpack _). vm_compute. exact I.
    + assert (E : _standardize_columns ["Total Task Hours"; "task_hours"]
                  = ["task_hours"; "task_hours"]) by (vm_compute; reflexivity).
      rewrite E. intros Hnd. apply NoDup_cons in Hnd as [Hnd _].
      apply Hnd. left.
Qed.

End CSVParserProps.

(** ** The in-memory history and the analytics summary *)

Module DatabaseProps.
Import Preprocessing Database PyFacts Aux FrameProps.

(** X25: after a sequence of _fallback_create calls the history of a
    user holds the user's records of that sequence, newest first, before
    what the history held already. *)
Theorem history_is_newest_first (h : History) (records : list AnalysisRecord)
    (user : string) :
  _fallback_get_history (create_all h records) user
  = (rev (filter (fun record => user_id record = user) records)
     ++ _fallback_get_history h user)%list.
Proof.
  unfold create_all. revert h.
  induction records as [|record records IH]; intros h; simpl; [reflexivity|].
  rewrite IH. unfold _fallback_get_history, _fallback_create. simpl.
  rewrite filter_cons. destruct (decide (user_id record = user)) as [E|E].
  - rewrite E, lookup_insert_eq. simpl. rewrite <- app_assoc. reflexivity.
  - rewrite lookup_insert_ne by exact E. reflexivity.
Qed.

(** X26: _fallback_delete_history returns the number of records
    the user had, leaves the user with an empty history and the other
    users as they were; a second deletion returns 0, and a record created
    afterwards is the user's whole history. *)
Theorem delete_history_empties_one_user (h : History) (user : string) :
  let deleted := _fallback_delete_history h user in
  deleted.1 = Z.of_nat (length (_fallback_get_history h user)) /\
  _fallback_get_history deleted.2 user = [] /\
  (forall other, other <> user ->
     _fallback_get_history deleted.2 other = _fallback_get_history h other) /\
  (_fallback_delete_history deleted.2 user).1 = 0%Z /\
  (forall record,
     user_id record = user ->
     _fallback_get_history (_fallback_create deleted.2 record).2 user = [record]).
Proof.
  unfold _fallback_delete_history, _fallback_get_history, _fallback_create. simpl.
  split; [reflexivity|]. split; [now rewrite lookup_insert_eq|].
  split; [intros other Hne; now rewrite lookup_insert_ne|].
  split; [now rewrite lookup_insert_eq|].
  intros record ->. now rewrite !lookup_insert_eq.
Qed.








Lemma py_round_Q x n : (to_Q (py_round x n) == round_decimals n (to_Q x))%Q.
Proof.
  destruct x as [z|q]; simpl; [|reflexivity].
  symmetry. apply round_decimals_Z.
Qed.

Lemma py_round_mono x y n :
  (to_Q x <= to_Q y)%Q -> (to_Q (py_round x n) <= to_Q (py_round y n))%Q.
Proof. intros H. rewrite !py_round_Q. now apply round_decimals_mono. Qed.






End DatabaseProps.
